(** * TrackRabbit ingestion and aggregation pipeline

    A shallow embedding of the tracking controller
    ([parseTimestamp], [validateEventData], [processEvents],
    [updateSessionData]), of the queue front end ([addEvent]), of the
    legacy worker job handler and of the geolocation helper
    ([getGeoInfo]), together with the properties of the design document
    that concern them. *)

From Stdlib Require Import ZArith String Ascii List Lia Bool.
From stdpp Require Import base option list gmap strings.

Local Open Scope Z_scope.
Local Open Scope string_scope.
Local Set Warnings "-register-all".

(** ** JavaScript values *)

Module JS.

(** A date object holds a time value in milliseconds or is the
    "Invalid Date" (time value NaN). *)
Inductive date : Type :=
| Valid (t : Z)
| InvalidDate.

(** Values a request body can carry after [express.json()], plus
    [JUndefined] for an absent property and [JDate] for date objects.
    Numbers are the integer-valued ones; an object lists each of its
    keys once. *)
Inductive jsval : Type :=
| JUndefined
| JNull
| JBool (b : bool)
| JNum (n : Z)
| JStr (s : string)
| JDate (d : date)
| JArr (items : list jsval)
| JObj (fields : list (string * jsval)).

(** ToBoolean *)
Definition truthy (v : jsval) : bool :=
  match v with
  | JUndefined | JNull => false
  | JBool b => b
  | JNum n => negb (Z.eqb n 0)
  | JStr s => negb (String.eqb s "")
  | JDate _ | JArr _ | JObj _ => true
  end.

Definition typeof (v : jsval) : string :=
  match v with
  | JUndefined => "undefined"
  | JNull | JDate _ | JArr _ | JObj _ => "object"
  | JBool _ => "boolean"
  | JNum _ => "number"
  | JStr _ => "string"
  end.

Fixpoint assoc (k : string) (fs : list (string * jsval)) : option jsval :=
  match fs with
  | [] => None
  | (k', v) :: fs' => if String.eqb k k' then Some v else assoc k fs'
  end.

(** Property read [v.k] for the property names the controller uses;
    none of them is defined on arrays, dates or primitive wrappers. *)
Definition get (v : jsval) (k : string) : jsval :=
  match v with
  | JObj fs => default JUndefined (assoc k fs)
  | _ => JUndefined
  end.

(** [new Date(ms)]: the time value is clipped to +-8.64e15 ms. *)
Definition maxTime : Z := 8640000000000000.

Definition new_Date (ms : Z) : date :=
  if Z.leb (Z.abs ms) maxTime then Valid ms else InvalidDate.

(** [s.substring(0, n)] *)
Definition substring0 (n : nat) (s : string) : string := String.substring 0 n s.

Definition lower_ascii (a : ascii) : ascii :=
  let n := nat_of_ascii a in
  if ((65 <=? n) && (n <=? 90))%nat then ascii_of_nat (n + 32) else a.

Fixpoint toLowerCase (s : string) : string :=
  match s with
  | EmptyString => EmptyString
  | String a s' => String (lower_ascii a) (toLowerCase s')
  end.

Definition is_space (a : ascii) : bool :=
  let n := nat_of_ascii a in
  ((n =? 32) || ((9 <=? n) && (n <=? 13)))%nat.

Fixpoint trimStart (s : string) : string :=
  match s with
  | EmptyString => EmptyString
  | String a s' => if is_space a then trimStart s' else s
  end.

Definition rev_string (s : string) : string :=
  string_of_list_ascii (rev (list_ascii_of_string s)).

Definition trim (s : string) : string :=
  rev_string (trimStart (rev_string (trimStart s))).

(** [arr.includes(v)] on an array of strings: strict equality. *)
Definition includes (l : list string) (v : jsval) : bool :=
  match v with
  | JStr s => existsb (String.eqb s) l
  | _ => false
  end.

End JS.
Import JS.

(** ** Validation and sanitisation (tracking controller) *)

Record page : Type := mkPage {
  page_url : string;
  page_title : string;
  page_referrer : string
}.

Record element : Type := mkElement {
  el_tag : string;
  el_id : string;
  el_class : string;
  el_text : string
}.

(** The type-specific and metadata fields other than [page]; the
    controller later stores them under [data]. *)
Record dataFields : Type := mkData {
  d_element : option element;
  d_position : option (Z * Z);
  d_depth : option Z;
  d_route : option (string * string);
  d_name : option string;
  d_properties : option jsval;
  d_screen : option (Z * Z);
  d_userAgent : option string;
  d_language : option string
}.

Record sanitizedEvent : Type := mkSanitized {
  s_projectId : string;
  s_sessionId : string;
  s_type : string;
  s_timestamp : date;
  s_page : option page;
  s_data : dataFields
}.

Definition validTypes : list string :=
  ["pageview"; "click"; "scroll"; "form"; "route"; "unload"; "event"; "custom"].

(** The seven types of the design document and of the Event schema. *)
Definition schemaTypes : list string :=
  ["pageview"; "click"; "scroll"; "form"; "route"; "unload"; "custom"].

Section Controller.

(** Ingestion-time clock reading, the host's date-string parser
    ([Date.parse], [None] for NaN) and the [String(v)] conversion of a
    value that is not already a string. *)
Variable now : Z.
Variable Date_parse : string -> option Z.
Variable String_conv : jsval -> string.

Definition js_String (v : jsval) : string :=
  match v with
  | JStr s => s
  | _ => String_conv v
  end.

Definition new_Date_string (s : string) : date :=
  match Date_parse s with
  | Some t => new_Date t
  | None => InvalidDate
  end.

Definition parseTimestamp (timestamp : jsval) : date :=
  if negb (truthy timestamp) then Valid now
  else match timestamp with
       | JDate d => d
       | JNum n =>
           let ts := if Z.gtb n 1000000000000 then n else n * 1000 in
           new_Date ts
       | JStr s =>
           match new_Date_string s with
           | Valid t => Valid t
           | InvalidDate =>
               match Date_parse s with
               | None => Valid now
               | Some parsed => new_Date parsed
               end
           end
       | _ => Valid now
       end.

Definition opt_str (n : nat) (v : jsval) : string :=
  if truthy v then substring0 n (js_String v) else "".

Definition clamp (lo hi x : Z) : Z := Z.max lo (Z.min x hi).

Definition sanitize_page (event : jsval) : option page :=
  if truthy (get event "url") then
    Some {| page_url := substring0 2048 (js_String (get event "url"));
            page_title := opt_str 200 (get event "title");
            page_referrer := opt_str 2048 (get event "referrer") |}
  else None.

Definition sanitize_element (event : jsval) : option element :=
  let e := get event "element" in
  if truthy e then
    Some {| el_tag := if truthy (get e "tag")
                      then toLowerCase (js_String (get e "tag")) else "";
            el_id := opt_str 100 (get e "id");
            el_class := opt_str 200 (get e "class");
            el_text := opt_str 100 (get e "text") |}
  else None.

Definition sanitize_position (event : jsval) : option (Z * Z) :=
  let p := get event "position" in
  if truthy p then
    match get p "x", get p "y" with
    | JNum x, JNum y => Some (clamp 0 10000 x, clamp 0 10000 y)
    | _, _ => None
    end
  else None.

Definition sanitize_screen (event : jsval) : option (Z * Z) :=
  let s := get event "screen" in
  if truthy s then
    Some (match get s "width" with JNum w => w | _ => 0 end,
          match get s "height" with JNum h => h | _ => 0 end)
  else None.

Definition validateEventData (event : jsval) : option sanitizedEvent :=
  if negb (truthy event) || negb (String.eqb (typeof event) "object") then None
  else if negb (truthy (get event "projectId"))
          || negb (truthy (get event "sessionId"))
          || negb (truthy (get event "type")) then None
  else if negb (includes validTypes (get event "type")) then None
  else
    let ty := trim (toLowerCase (js_String (get event "type"))) in
    let ty_is t := String.eqb ty t in
    let named := (ty_is "event" || ty_is "custom") && truthy (get event "name") in
    Some {|
      s_projectId := trim (js_String (get event "projectId"));
      s_sessionId := trim (js_String (get event "sessionId"));
      s_type := ty;
      s_timestamp := parseTimestamp (get event "timestamp");
      s_page := if ty_is "pageview" then sanitize_page event else None;
      s_data := {|
      d_element := if ty_is "click" then sanitize_element event else None;
      d_position := if ty_is "click" then sanitize_position event else None;
      d_depth := if ty_is "scroll"
                 then match get event "depth" with
                      | JNum d => Some (clamp 0 100 d)
                      | _ => None
                      end
                 else None;
      d_route := if ty_is "route" && truthy (get event "from") && truthy (get event "to")
                 then Some (substring0 2048 (js_String (get event "from")),
                            substring0 2048 (js_String (get event "to")))
                 else None;
      d_name := if named then Some (substring0 100 (js_String (get event "name")))
                else None;
      d_properties :=
        if named then
          Some (let p := get event "properties" in
                if truthy p && String.eqb (typeof p) "object" then p else JObj [])
        else None;
      d_screen := sanitize_screen event;
      d_userAgent := if truthy (get event "userAgent")
                     then Some (substring0 500 (js_String (get event "userAgent")))
                     else None;
      d_language := if truthy (get event "language")
                    then Some (substring0 10 (js_String (get event "language")))
                    else None |}
    |}.

End Controller.

(** ** Exceptions *)

Inductive error : Type :=
| ConflictingUpdateOperators (path : string)
| DuplicateKey (index : string)
| TypeMismatch (path : string)
| CastError (path : string)
| ValidationError (path : string)
| TypeError
| LookupFailed
| Unavailable.

(** A computation either returns or throws. *)
Inductive result (A : Type) : Type :=
| Ok (a : A)
| Throw (e : error).
Arguments Ok {A} a.
Arguments Throw {A} e.

#[global] Instance result_ret : MRet result := fun A a => Ok a.

#[global] Instance result_bind : MBind result := fun A B k r =>
  match r with
  | Ok a => k a
  | Throw e => Throw e
  end.

(** [try { body } catch (error) { handler }] *)
Definition try_catch {A} (body : result A) (handler : error -> result A) : result A :=
  match body with
  | Ok a => Ok a
  | Throw e => handler e
  end.

(** ** Geolocation helper *)

Record geoInfo : Type := mkGeo {
  country : jsval;
  city : jsval;
  region : jsval;
  latitude : jsval;
  longitude : jsval
}.

Definition geoLocal : geoInfo :=
  mkGeo (JStr "Local") (JStr "Local") (JStr "Local") JNull JNull.

Definition geoUnknown : geoInfo :=
  mkGeo (JStr "Unknown") (JStr "Unknown") (JStr "Unknown") JNull JNull.

(** What [fetch] resolves to: the [ok] flag and the outcome of
    [response.json()]. *)
Record response : Type := mkResponse {
  resp_ok : bool;
  resp_json : result jsval
}.

(** [a || b] *)
Definition js_or (a b : jsval) : jsval := if truthy a then a else b.

(** Property read that throws on [null] and [undefined]. *)
Definition get_strict (v : jsval) (k : string) : result jsval :=
  match v with
  | JUndefined | JNull => Throw TypeError
  | _ => Ok (get v k)
  end.

Definition skipsLookup (ip : string) : bool :=
  String.eqb ip "127.0.0.1" || String.eqb ip "::1"
  || String.prefix "192.168." ip || String.prefix "10." ip
  || String.prefix "172." ip.

Section GeoLookup.

(** The outcome of [fetch(IPWHO_API + ip)]. *)
Variable fetch : string -> result response.

Definition getGeoInfo_try (ip : string) : result geoInfo :=
  if skipsLookup ip then Ok geoLocal
  else
    resp ← fetch ip;
    if negb (resp_ok resp) then Throw LookupFailed
    else
      data ← resp_json resp;
      c ← get_strict data "country";
      ci ← get_strict data "city";
      r ← get_strict data "region";
      la ← get_strict data "latitude";
      lo ← get_strict data "longitude";
      Ok {| country := js_or c (JStr "Unknown");
            city := js_or ci (JStr "Unknown");
            region := js_or r (JStr "Unknown");
            latitude := js_or la JNull;
            longitude := js_or lo JNull |}.

Definition getGeoInfo (ip : string) : result geoInfo :=
  try_catch (getGeoInfo_try ip) (fun _ => Ok geoUnknown).

End GeoLookup.

(** What the design document means by a loopback or private address:
    [::1], 127.0.0.0/8 and the three private IPv4 blocks 10.0.0.0/8,
    172.16.0.0/12 and 192.168.0.0/16. *)
Module AddressSpec.

Definition digit (a : ascii) : option N :=
  let n := N_of_ascii a in
  if (N.leb 48 n && N.leb n 57)%bool then Some (n - 48)%N else None.

Fixpoint octets (s : string) (cur : option N) (acc : list N) : option (list N) :=
  match s with
  | EmptyString =>
      match cur with
      | Some n => Some (rev (n :: acc))
      | None => None
      end
  | String a s' =>
      if Ascii.eqb a "."%char then
        match cur with
        | Some n => octets s' None (n :: acc)
        | None => None
        end
      else
        match digit a with
        | Some d => octets s' (Some (10 * default 0%N cur + d)%N) acc
        | None => None
        end
  end.

Definition spec_isLocalAddress (ip : string) : bool :=
  String.eqb ip "::1" ||
  match octets ip None [] with
  | Some [a; b; c; d] =>
      forallb (fun x => N.leb x 255) [a; b; c; d] &&
      (N.eqb a 127 || N.eqb a 10
       || (N.eqb a 172 && N.leb 16 b && N.leb b 31)
       || (N.eqb a 192 && N.eqb b 168))
  | _ => false
  end.

End AddressSpec.

(** ** Storage layer: documents, update operators, the Session collection *)

Module Mongo.

Inductive value : Type :=
| VBool (b : bool)
| VNum (n : Z)
| VDate (t : Z)
| VStr (s : string)
| VId (n : N)
| VUndefined
| VObj (fields : list (string * value)).

(** A document maps field paths (["events.clicks"]) to values; its
    [_id] is its position in the collection. Of the schema layer only
    what can make a call fail is kept: the unique index on [sessionId]
    and the cast of a timestamp to a Date. *)
Abbreviation doc := (gmap string value).

(** An update document with the three operators the code uses. *)
Record update : Type := mkUpdate {
  u_set : gmap string value;
  u_inc : gmap string Z;
  u_setOnInsert : gmap string value
}.

Definition noUpdate : update := mkUpdate ∅ ∅ ∅.

(** [u.$set[p] = v], [u.$inc[p] = k], [u.$setOnInsert[p] = v] *)
Definition set_ (p : string) (v : value) (u : update) : update :=
  mkUpdate (<[p := v]> (u_set u)) (u_inc u) (u_setOnInsert u).
Definition inc_ (p : string) (k : Z) (u : update) : update :=
  mkUpdate (u_set u) (<[p := k]> (u_inc u)) (u_setOnInsert u).
Definition setOnInsert_ (p : string) (v : value) (u : update) : update :=
  mkUpdate (u_set u) (u_inc u) (<[p := v]> (u_setOnInsert u)).

(** The server refuses an update in which two operators name the same
    path, or a path and one of its prefixes
    (error 40, ConflictingUpdateOperators). *)
Definition path_conflict (p q : string) : bool :=
  String.eqb p q || String.prefix (p +:+ ".") q || String.prefix (q +:+ ".") p.

Fixpoint first_conflict (ps : list string) : option string :=
  match ps with
  | [] => None
  | p :: ps' =>
      if existsb (path_conflict p) ps' then Some p else first_conflict ps'
  end.

Definition update_paths (u : update) : list string :=
  ((map_to_list (u_set u)).*1 ++ (map_to_list (u_inc u)).*1
    ++ (map_to_list (u_setOnInsert u)).*1)%list.

(** [$inc] adds to a number and creates an absent field. *)
Definition inc_field (old : option value) (k : option Z) : option value :=
  match k, old with
  | None, _ => old
  | Some k, None => Some (VNum k)
  | Some k, Some (VNum n) => Some (VNum (n + k))
  | Some _, Some v => Some v
  end.

Definition numeric_or_absent (d : doc) (p : string) : bool :=
  match d !! p with
  | None | Some (VNum _) => true
  | Some _ => false
  end.

Definition first_mismatch (d : doc) (inc : gmap string Z) : option string :=
  List.find (fun p => negb (numeric_or_absent d p)) (map_to_list inc).*1.

(** [$set] then [$inc] on a stored document. *)
Definition apply_update (u : update) (d : doc) : result doc :=
  match first_mismatch d (u_inc u) with
  | Some p => Throw (TypeMismatch p)
  | None => Ok (merge inc_field (u_set u ∪ d) (u_inc u))
  end.

Definition matches (pid : N) (sid : string) (d : doc) : bool :=
  match d !! "projectId", d !! "sessionId" with
  | Some (VId p), Some (VStr s) => N.eqb p pid && String.eqb s sid
  | _, _ => false
  end.

Definition has_sessionId (sid : string) (d : doc) : bool :=
  match d !! "sessionId" with
  | Some (VStr s) => String.eqb s sid
  | _ => false
  end.

Definition key_fields (pid : N) (sid : string) : doc :=
  <["projectId" := VId pid]> (<["sessionId" := VStr sid]> ∅).

(** [Session.findOneAndUpdate({projectId, sessionId}, u,
    {upsert: true, new: true})] on the collection [docs]. The schema
    declares [sessionId] [unique], so an insert that repeats a stored
    [sessionId] fails with a duplicate-key error. Returns the new
    collection, the [_id] and the document after the update. *)
Definition findOneAndUpdate (pid : N) (sid : string) (u : update)
    (docs : list doc) : result (list doc * (nat * doc)) :=
  match first_conflict (update_paths u) with
  | Some p => Throw (ConflictingUpdateOperators p)
  | None =>
      match list_find (fun d => Is_true (matches pid sid d)) docs with
      | Some (i, d) =>
          d' ← apply_update u d;
          Ok (<[i := d']> docs, (i, d'))
      | None =>
          d' ← apply_update u (u_setOnInsert u ∪ key_fields pid sid);
          if existsb (has_sessionId sid) docs
          then Throw (DuplicateKey "sessionId")
          else Ok ((docs ++ [d'])%list, (length docs, d'))
      end
  end.

(** [Session.findByIdAndUpdate(id, u)] *)
Definition findByIdAndUpdate (id : nat) (u : update)
    (docs : list doc) : result (list doc) :=
  match first_conflict (update_paths u) with
  | Some p => Throw (ConflictingUpdateOperators p)
  | None =>
      match docs !! id with
      | Some d =>
          d' ← apply_update u d;
          Ok (<[id := d']> docs)
      | None => Ok docs
      end
  end.

(** The session stored for a key, as a query by the pair finds it. *)
Definition findOne (pid : N) (sid : string) (docs : list doc) : option doc :=
  snd <$> list_find (fun d => Is_true (matches pid sid d)) docs.

End Mongo.
Import Mongo.

(** ** Aggregation *)

Record user : Type := mkUser {
  user_ip : string;
  user_userAgent : string;
  user_browser : string;
  user_os : string;
  user_device : string;
  user_country : string;
  user_city : string;
  user_region : string
}.

Record metadata : Type := mkMetadata {
  meta_receivedAt : Z;
  meta_userAgent : string;
  meta_ip : string
}.

(** The payload handed to the queue and to the storage layer. [ev_url]
    is the top-level [url] that only payloads of the first controller
    carry. *)
Record eventData : Type := mkEvent {
  ev_projectId : N;
  ev_sessionId : string;
  ev_type : string;
  ev_timestamp : date;
  ev_user : user;
  ev_metadata : metadata;
  ev_page : option page;
  ev_url : option string;
  ev_data : dataFields
}.

Definition user_value (u : user) : value :=
  VObj [("ip", VStr (user_ip u)); ("userAgent", VStr (user_userAgent u));
        ("browser", VStr (user_browser u)); ("os", VStr (user_os u));
        ("device", VStr (user_device u)); ("country", VStr (user_country u));
        ("city", VStr (user_city u)); ("region", VStr (user_region u))].

Definition opt_value (o : option string) : value :=
  match o with
  | Some s => VStr s
  | None => VUndefined
  end.

(** The update document [updateSessionData] builds for an event whose
    timestamp is the instant [t]. *)
Definition updateData (ev : eventData) (t : Z) : update :=
  let ty := ev_type ev in
  let u0 :=
    mkUpdate
      (<["lastActivity" := VDate t]> (<["lastEvent" := VStr ty]> ∅))
      ∅
      (<["startTime" := VDate t]>
         (<["user" := user_value (ev_user ev)]>
            (<["isBounce" := VBool true]> ∅))) in
  let u1 :=
    if String.eqb ty "pageview" then
      set_ "isBounce" (VBool false)
        (set_ "lastPage"
           (VObj [("url", opt_value (page_url <$> ev_page ev));
                  ("title", opt_value (page_title <$> ev_page ev))])
           (inc_ "pageViews" 1 u0))
    else if String.eqb ty "click" then
      set_ "isBounce" (VBool false) (inc_ "events.clicks" 1 u0)
    else if String.eqb ty "scroll" then inc_ "events.scrolls" 1 u0
    else if String.eqb ty "form" then
      set_ "isBounce" (VBool false) (inc_ "events.forms" 1 u0)
    else if String.eqb ty "route" then inc_ "events.routes" 1 u0
    else if String.eqb ty "unload" then set_ "endTime" (VDate t) u0
    else u0 in
  match ev_page ev with
  | Some p =>
      if String.eqb ty "pageview" then
        setOnInsert_ "firstPage"
          (VObj [("url", VStr (page_url p)); ("title", VStr (page_title p));
                 ("referrer", VStr (page_referrer p))]) u1
      else u1
  | None => u1
  end.

(** [updateSessionData(eventData, eventId)]: the upsert, then for an
    [unload] event the separate write of [duration]. The collection is
    returned also when the call throws. A timestamp that is the Invalid
    Date fails the cast to the schema's Date type. *)
Definition updateSessionData (ev : eventData) (sessions : list doc)
    : list doc * result doc :=
  match ev_timestamp ev with
  | InvalidDate => (sessions, Throw (CastError "startTime"))
  | Valid t =>
      match findOneAndUpdate (ev_projectId ev) (ev_sessionId ev)
              (updateData ev t) sessions with
      | Throw e => (sessions, Throw e)
      | Ok (sessions1, (id, session)) =>
          if String.eqb (ev_type ev) "unload" then
            match session !! "startTime" with
            | Some (VDate startTime) =>
                let duration := t - startTime in
                match findByIdAndUpdate id
                        (set_ "duration" (VNum (Z.max 0 duration)) noUpdate)
                        sessions1 with
                | Throw e => (sessions1, Throw e)
                | Ok sessions2 => (sessions2, Ok session)
                end
            | _ => (sessions1, Ok session)
            end
          else (sessions1, Ok session)
      end
  end.

(** Folding a sequence of events, one call each; a call that throws is
    logged by its caller and the next event is taken. *)
Definition aggregate (evs : list eventData) (sessions : list doc) : list doc :=
  fold_left (fun s ev => fst (updateSessionData ev s)) evs sessions.

(** ** Raw event storage and the worker job handlers *)

(** [Event.create(ev)] against the Event schema: [sessionId] and
    [timestamp] are required, [type] is an enum, and the Invalid Date
    does not cast to a Date. Returns the new collection and the [_id]. *)
Definition Event_create (ev : eventData) (events : list eventData)
    : result (list eventData * nat) :=
  if String.eqb (ev_sessionId ev) "" then Throw (ValidationError "sessionId")
  else if negb (existsb (String.eqb (ev_type ev)) schemaTypes)
  then Throw (ValidationError "type")
  else match ev_timestamp ev with
       | InvalidDate => Throw (CastError "timestamp")
       | Valid _ => Ok ((events ++ [ev])%list, length events)
       end.

Record store : Type := mkStore {
  st_events : list eventData;
  st_sessions : list doc
}.

Definition b2z (b : bool) : Z := if b then 1 else 0.

(** The update document of the job handler in [worker/worker.js]. *)
Definition legacy_update (event : eventData) (t : Z) : update :=
  let ty := ev_type event in
  mkUpdate
    (<["lastEvent" := VStr ty]>
       (<["lastPage" := if String.eqb ty "pageview"
                        then opt_value (ev_url event) else VUndefined]>
          (<["lastActivity" := VDate t]> ∅)))
    (<["pageViews" := b2z (String.eqb ty "pageview")]>
       (<["clicks" := b2z (String.eqb ty "click")]>
          (<["scrolls" := b2z (String.eqb ty "scroll")]>
             (<["forms" := b2z (String.eqb ty "form")]>
                (<["routes" := b2z (String.eqb ty "route")]> ∅)))))
    (<["startTime" := VDate t]> (<["user" := user_value (ev_user event)]> ∅)).

(** The job handler of [worker/worker.js] ([initializeWorker]): persist
    the event, upsert the session, and for [unload] write [endTime] and
    [duration] in a second update. Returns the ids of the stored event
    and session. *)
Definition legacy_processJob (event : eventData) (st : store)
    : store * result (nat * nat) :=
  match Event_create event (st_events st) with
  | Throw e => (st, Throw e)
  | Ok (events1, eventId) =>
      let st1 := mkStore events1 (st_sessions st) in
      match ev_timestamp event with
      | InvalidDate => (st1, Throw (CastError "startTime"))
      | Valid t =>
          match findOneAndUpdate (ev_projectId event) (ev_sessionId event)
                  (legacy_update event t) (st_sessions st) with
          | Throw e => (st1, Throw e)
          | Ok (sessions1, (id, session)) =>
              let st2 := mkStore events1 sessions1 in
              if String.eqb (ev_type event) "unload" then
                match session !! "startTime" with
                | Some (VDate startTime) =>
                    match findByIdAndUpdate id
                            (set_ "endTime" (VDate t)
                               (set_ "duration" (VNum (t - startTime)) noUpdate))
                            sessions1 with
                    | Throw e => (st2, Throw e)
                    | Ok sessions2 => (mkStore events1 sessions2, Ok (eventId, id))
                    end
                | _ => (st2, Throw (CastError "duration"))
                end
              else (st2, Ok (eventId, id))
          end
      end
  end.

(** The job handler of the queue-backed worker: persist the event, then
    [updateSessionData]. *)
Definition worker_processJob (event : eventData) (st : store)
    : store * result nat :=
  match Event_create event (st_events st) with
  | Throw e => (st, Throw e)
  | Ok (events1, eventId) =>
      let '(sessions1, r) := updateSessionData event (st_sessions st) in
      (mkStore events1 sessions1,
       match r with
       | Ok _ => Ok eventId
       | Throw e => Throw e
       end)
  end.

(** ** Dispatch to the durable queue *)

Record job : Type := mkJob {
  job_data : eventData;
  job_priority : Z;
  job_delay : Z
}.

Record queueState : Type := mkQueue {
  redisReady : bool;
  eventQueue : option (list job);
  add_throws : bool
}.

(** The priority option [addEvent] passes for an event. *)
Definition priority (ev : eventData) : Z :=
  if String.eqb (ev_type ev) "pageview" then 10 else 5.

(** [addEvent(eventData)]: [true] when the job was queued. *)
Definition addEvent (ev : eventData) (q : queueState) : queueState * bool :=
  match eventQueue q with
  | Some jobs =>
      if redisReady q then
        if add_throws q then (q, false)
        else (mkQueue (redisReady q)
                (Some (jobs ++ [mkJob ev (priority ev) 0])%list) (add_throws q),
              true)
      else (q, false)
  | None => (q, false)
  end.

(** ** The ingestion endpoint *)

Record request : Type := mkRequest {
  req_body : jsval;
  req_ip : option string;
  req_connection_remoteAddress : option string;
  req_socket_remoteAddress : option string;
  req_headers : gmap string string
}.

(** [a || b] on optional strings *)
Definition or_str (a : option string) (b : option string) : option string :=
  match a with
  | Some s => if String.eqb s "" then b else a
  | None => b
  end.

Fixpoint before_comma (s : string) : string :=
  match s with
  | EmptyString => EmptyString
  | String a s' => if Ascii.eqb a ","%char then EmptyString
                   else String a (before_comma s')
  end.

Definition getClientIP (req : request) : string :=
  default "127.0.0.1"
    (or_str (req_ip req)
       (or_str (req_connection_remoteAddress req)
          (or_str (req_socket_remoteAddress req)
             (or_str ((fun h => trim (before_comma h))
                        <$> req_headers req !! "x-forwarded-for")
                (or_str (req_headers req !! "x-real-ip")
                   (req_headers req !! "x-client-ip")))))).

(** Device classification ([utils/deviceParser.js]). *)
Record deviceInfo : Type := mkDevice {
  browser_name : string;
  os_name : string;
  device_type : string
}.

(** What the UA parsing library reports; [None] is [undefined]. *)
Record uaResult : Type := mkUA {
  ua_browser : option string;
  ua_os : option string;
  ua_device : option string
}.

Definition or_default (a : option string) (d : string) : string :=
  default d (or_str a None).

Definition unknownDevice : deviceInfo := mkDevice "Unknown" "Unknown" "desktop".

(** Observable steps of a request, in program order. *)
Inductive effect : Type :=
| Respond (status : Z) (message : string)
| LogWarn (message : string)
| LogInfo (message : string)
| ParseUserAgent (ua : string)
| GeoLookup (ip : string)
| Validate (raw : jsval)
| ProjectLookup (trackingId : string)
| Dispatch (ev : eventData)
| Persist (ev : eventData)
| Aggregate (ev : eventData)
| Summary (processed skipped : nat).

Record world : Type := mkWorld {
  w_store : store;
  w_queue : queueState;
  w_trace : list effect
}.

Definition emit (e : effect) (w : world) : world :=
  mkWorld (w_store w) (w_queue w) (w_trace w ++ [e])%list.

Definition is_array (v : jsval) : bool :=
  match v with JArr _ => true | _ => false end.

Definition items (v : jsval) : list jsval :=
  match v with JArr l => l | _ => [] end.

Definition maxBatch : nat := 50.

Section Ingestion.

Variable now : Z.
Variable Date_parse : string -> option Z.
Variable String_conv : jsval -> string.
Variable fetch : string -> result response.
Variable UAParser : string -> result uaResult.
(** [Project.findOne({trackingId, isActive: true})]: the project's
    [_id], [None] when there is no active project. *)
Variable Project_findOne : string -> result (option N).

Definition parseUserAgent (userAgent : string) : result deviceInfo :=
  try_catch
    (r ← UAParser userAgent;
     Ok (mkDevice (or_default (ua_browser r) "Unknown")
           (or_default (ua_os r) "Unknown")
           (or_default (ua_device r) "desktop")))
    (fun _ => Ok unknownDevice).

Definition enrich (s : sanitizedEvent) (projectId : N) (clientIP userAgent : string)
    (device : deviceInfo) (geo : geoInfo) : eventData :=
  {| ev_projectId := projectId;
     ev_sessionId := s_sessionId s;
     ev_type := s_type s;
     ev_timestamp := s_timestamp s;
     ev_user :=
       {| user_ip := clientIP;
          user_userAgent := userAgent;
          user_browser := or_default (Some (browser_name device)) "Unknown";
          user_os := or_default (Some (os_name device)) "Unknown";
          user_device := or_default (Some (device_type device)) "desktop";
          user_country := js_String String_conv (js_or (country geo) (JStr "Unknown"));
          user_city := js_String String_conv (js_or (city geo) (JStr "Unknown"));
          user_region := js_String String_conv (js_or (region geo) (JStr "Unknown")) |};
     ev_metadata := mkMetadata now userAgent clientIP;
     ev_page := s_page s;
     ev_url := None;
     ev_data := s_data s |}.

(** Direct save when the event was not queued: [Event.create] then
    [updateSessionData]; [false] when either throws. *)
Definition save_directly (ev : eventData) (w : world) : world * bool :=
  let w := emit (Persist ev) w in
  match Event_create ev (st_events (w_store w)) with
  | Throw _ => (w, false)
  | Ok (events1, _) =>
      let w := emit (Aggregate ev)
                 (mkWorld (mkStore events1 (st_sessions (w_store w)))
                    (w_queue w) (w_trace w)) in
      let '(sessions1, r) := updateSessionData ev (st_sessions (w_store w)) in
      (mkWorld (mkStore events1 sessions1) (w_queue w) (w_trace w),
       match r with Ok _ => true | Throw _ => false end)
  end.

(** One iteration of the loop over the batch: [true] when the event
    is counted as processed, [false] when it is counted as skipped. *)
Definition process_one (clientIP userAgent : string) (device : deviceInfo)
    (geo : geoInfo) (rawEvent : jsval) (w : world) : world * bool :=
  let w := emit (Validate rawEvent) w in
  match validateEventData now Date_parse String_conv rawEvent with
  | None => (w, false)
  | Some sanitizedEvent =>
      let w := emit (ProjectLookup (s_projectId sanitizedEvent)) w in
      match Project_findOne (s_projectId sanitizedEvent) with
      | Throw _ => (w, false)
      | Ok None => (w, false)
      | Ok (Some projectId) =>
          let ev := enrich sanitizedEvent projectId clientIP userAgent device geo in
          let w := emit (Dispatch ev) w in
          let '(q, queued) := addEvent ev (w_queue w) in
          let w := mkWorld (w_store w) q (w_trace w) in
          if queued then (w, true) else save_directly ev w
      end
  end.

Fixpoint process_batch (clientIP userAgent : string) (device : deviceInfo)
    (geo : geoInfo) (batch : list jsval) (w : world) (processed skipped : nat)
    : world * (nat * nat) :=
  match batch with
  | [] => (w, (processed, skipped))
  | rawEvent :: rest =>
      let '(w', ok) := process_one clientIP userAgent device geo rawEvent w in
      if ok then process_batch clientIP userAgent device geo rest w' (S processed) skipped
      else process_batch clientIP userAgent device geo rest w' processed (S skipped)
  end.

(** [processEvents(req, res)]. Returns the world after the handler
    and, when the batch was looped over, the two counters of the
    closing log line. *)
Definition processEvents (req : request) (w : world)
    : world * option (nat * nat) :=
  let events := req_body req in
  let w := emit (Respond 202 "Events received") w in
  if negb (is_array events) || (length (items events) =? 0)%nat then
    (emit (LogWarn "Invalid events data received - not an array or empty") w, None)
  else
    let w := emit (LogInfo "Received events for processing") w in
    let limitedEvents := firstn maxBatch (items events) in
    let clientIP := getClientIP req in
    let userAgent := default "" (or_str (req_headers req !! "user-agent") None) in
    let w := emit (ParseUserAgent userAgent) w in
    let deviceInfo :=
      match parseUserAgent userAgent with
      | Ok d => d
      | Throw _ => unknownDevice
      end in
    let w := emit (GeoLookup clientIP) w in
    let geoInfo :=
      match getGeoInfo fetch clientIP with
      | Ok g => g
      | Throw _ => geoUnknown
      end in
    let '(w, (processed, skipped)) :=
      process_batch clientIP userAgent deviceInfo geoInfo limitedEvents w 0 0 in
    (emit (Summary processed skipped) w, Some (processed, skipped)).

End Ingestion.

(** ** The in-process fallback queue (the worker module with [processFallbackQueue]) *)

(** Whether a call returned. *)
Definition succeeded {A} (r : result A) : bool :=
  match r with Ok _ => true | Throw _ => false end.

(** [processEvent(event)]: the same statements as the job handler of
    [worker/worker.js]. *)
Definition processEvent (event : eventData) (st : store) : store * result (nat * nat) :=
  legacy_processJob event st.

Record fallbackState : Type := mkFallback {
  fallbackQueue : list eventData;
  isProcessingFallback : bool;
  fb_store : store
}.

(** [Promise.all(batch.map(processEvent))]: every call of the batch
    runs, also after one of them has thrown; the calls are taken in
    queue order. [true] when none threw. *)
Fixpoint processAll (batch : list eventData) (st : store) : store * bool :=
  match batch with
  | [] => (st, true)
  | event :: rest =>
      let '(st1, r) := processEvent event st in
      let '(st2, ok) := processAll rest st1 in
      (st2, succeeded r && ok)
  end.

(** One run of [processFallbackQueue()]: the first ten events are taken
    off the queue ([splice(0, 10)]) and put back at its front
    ([unshift(...batch)]) when one of them throws. *)
Definition processFallbackQueue (f : fallbackState) : fallbackState :=
  if isProcessingFallback f || (length (fallbackQueue f) =? 0)%nat then f
  else
    let batch := firstn 10 (fallbackQueue f) in
    let rest := skipn 10 (fallbackQueue f) in
    let '(st, ok) := processAll batch (fb_store f) in
    mkFallback (if ok then rest else (batch ++ rest)%list) false st.

(** The runs that [setTimeout(processFallbackQueue, 1000)] chains while
    the queue is not empty, at most [rounds] of them. *)
Fixpoint drainFallback (rounds : nat) (f : fallbackState) : fallbackState :=
  match rounds with
  | O => f
  | S n =>
      let f' := processFallbackQueue f in
      if (length (fallbackQueue f') =? 0)%nat then f' else drainFallback n f'
  end.

(** ** Sample data *)

Definition sampleUser : user :=
  mkUser "203.0.113.7" "Mozilla/5.0" "Firefox" "Linux" "desktop"
    "Unknown" "Unknown" "Unknown".

Definition sampleMetadata : metadata := mkMetadata 0 "Mozilla/5.0" "203.0.113.7".

Definition noData : dataFields :=
  mkData None None None None None None None None None.

(** An event of the given project, session and type at instant [t]. *)
Definition sampleEvent (pid : N) (sid ty : string) (t : Z) : eventData :=
  mkEvent pid sid ty (Valid t) sampleUser sampleMetadata None None noData.

(** A stored session that has left the bounce state. *)
Definition engagedSession : doc :=
  <["isBounce" := VBool false]>
    (<["startTime" := VDate 1000]> (key_fields 1 "S")).

Definition sampleNow : Z := 1700000000123.
Definition noDateParse : string -> option Z := fun _ => None.
Definition noStringConv : jsval -> string := fun _ => "".
Definition fetchDown : string -> result response := fun _ => Throw Unavailable.
Definition sampleUA : string -> result uaResult :=
  fun _ => Ok (mkUA (Some "Firefox") (Some "Linux") None).

(** One active project, with tracking id ["T1"]. *)
Definition sampleProjects : string -> result (option N) :=
  fun tid => if String.eqb tid "T1" then Ok (Some 1%N) else Ok None.

Definition rawEvent (sid ty : string) (ts : jsval) : jsval :=
  JObj [("projectId", JStr "T1"); ("sessionId", JStr sid); ("type", JStr ty);
        ("timestamp", ts)].

Definition sampleRequest (body : jsval) : request :=
  mkRequest body (Some "203.0.113.7") None None (<["user-agent" := "Mozilla/5.0"]> ∅).

Definition queueUp : queueState := mkQueue true (Some []) false.
Definition queueDown : queueState := mkQueue false None false.
Definition emptyWorld (q : queueState) : world := mkWorld (mkStore [] []) q [].

(** [processEvents] in the sample environment. *)
Definition sampleRun (body : jsval) (q : queueState) : world * option (nat * nat) :=
  processEvents sampleNow noDateParse noStringConv fetchDown sampleUA sampleProjects
    (sampleRequest body) (emptyWorld q).

Definition deepScroll : jsval :=
  JObj [("projectId", JStr "T1"); ("sessionId", JStr "S1");
        ("type", JStr "scroll"); ("url", JStr "https://example.org/a");
        ("depth", JNum 250)].

Definition farClick : jsval :=
  JObj [("projectId", JStr "T1"); ("sessionId", JStr "S1"); ("type", JStr "click");
        ("position", JObj [("x", JNum (-5)); ("y", JNum 123456)])].

Definition longLanguage : jsval :=
  JObj [("projectId", JStr "T1"); ("sessionId", JStr "S1");
        ("type", JStr "pageview"); ("url", JStr "https://example.org/a");
        ("language", JStr "en-GB-oxendict")].

(** No project answers. *)
Definition noProjects : string -> result (option N) := fun _ => Ok None.

Definition threeScrolls : jsval :=
  JArr [rawEvent "S1" "scroll" (JNum 1700000000000);
        rawEvent "S1" "scroll" (JNum 1700000001000);
        rawEvent "S2" "route" (JNum 1700000002000)].


(** The same, with an event of a type the schema lacks in third place. *)
Definition waitingWithRefused : list eventData :=
  [sampleEvent 1 "S" "scroll" 1; sampleEvent 1 "S" "route" 2;
   sampleEvent 1 "S" "event" 3; sampleEvent 1 "S" "scroll" 4].

(** ** Predicates used in the statements *)

(** The event types whose update writes [isBounce] under [$set]. *)
Definition flips_bounce (ty : string) : bool :=
  String.eqb ty "pageview" || String.eqb ty "click" || String.eqb ty "form".

(** What an update of a stored session leaves alone: the key fields and
    [startTime]; and [isBounce] once it is [false]. *)
Definition preserves (d d' : doc) : Prop :=
  d' !! "projectId" = d !! "projectId"
  /\ d' !! "sessionId" = d !! "sessionId"
  /\ d' !! "startTime" = d !! "startTime"
  /\ (d !! "isBounce" = Some (VBool false) -> d' !! "isBounce" = Some (VBool false)).

Definition key_matches (ev : eventData) (d : doc) : Prop :=
  Is_true (matches (ev_projectId ev) (ev_sessionId ev) d).

(** The records a trace shows as validated, and the responses it
    shows as sent, in order. *)
Definition validated (tr : list effect) : list jsval :=
  omap (fun e => match e with Validate r => Some r | _ => None end) tr.

Definition responses (tr : list effect) : list (Z * string) :=
  omap (fun e => match e with Respond st m => Some (st, m) | _ => None end) tr.

(** The field [p] of the session stored for a key. *)
Definition fieldOf (pid : N) (sid p : string) (s : list doc) : option value :=
  d ← findOne pid sid s; d !! p.


(** Case analysis on the type tests of an update document. *)
Ltac type_cases ev :=
  repeat match goal with
    | |- context [String.eqb (ev_type ev) ?s] =>
        let E := fresh "E" in
        destruct (String.eqb_spec (ev_type ev) s) as [E|E];
        [rewrite ?E in *|]
    end.

(** The counter an event type increments, among the types whose update
    the storage layer accepts. *)
Definition counter_path (ty : string) : option string :=
  if String.eqb ty "scroll" then Some "events.scrolls"
  else if String.eqb ty "route" then Some "events.routes"
  else None.

(** Whether the queue takes jobs. *)
Definition available (q : queueState) : bool :=
  redisReady q && bool_decide (is_Some (eventQueue q)) && negb (add_throws q).

(** The jobs held by the queue. *)
Definition jobs_of (q : queueState) : list job := default [] (eventQueue q).

(** What the Event schema asks of a stored event. *)
Definition event_ok (ev : eventData) : bool :=
  negb (String.eqb (ev_sessionId ev) "")
  && existsb (String.eqb (ev_type ev)) schemaTypes
  && match ev_timestamp ev with Valid _ => true | InvalidDate => false end.

(** * Properties *)

(** ** Update documents *)

Lemma updateData_conflict ev t :
  first_conflict (update_paths (updateData ev t)) =
  if flips_bounce (ev_type ev) then Some "isBounce" else None.
Proof.
  unfold flips_bounce, updateData. destruct (ev_page ev); type_cases ev;
    vm_compute; reflexivity.
Qed.

Lemma updateData_keeps ev t p :
  p = "projectId" \/ p = "sessionId" \/ p = "startTime" ->
  u_set (updateData ev t) !! p = None /\ u_inc (updateData ev t) !! p = None.
Proof.
  unfold updateData.
  intros [-> | [-> | ->]]; destruct (ev_page ev); type_cases ev;
    vm_compute; split; reflexivity.
Qed.

Lemma updateData_isBounce ev t :
  (u_set (updateData ev t) !! "isBounce" = None
   \/ u_set (updateData ev t) !! "isBounce" = Some (VBool false))
  /\ u_inc (updateData ev t) !! "isBounce" = None.
Proof.
  unfold updateData. destruct (ev_page ev); type_cases ev;
    vm_compute; split; auto.
Qed.

Lemma updateData_setOnInsert ev t :
  u_setOnInsert (updateData ev t) !! "isBounce" = Some (VBool true)
  /\ u_setOnInsert (updateData ev t) !! "startTime" = Some (VDate t)
  /\ u_setOnInsert (updateData ev t) !! "projectId" = None
  /\ u_setOnInsert (updateData ev t) !! "sessionId" = None.
Proof.
  unfold updateData. destruct (ev_page ev); type_cases ev;
    vm_compute; repeat split; reflexivity.
Qed.

Lemma updateData_unload ev t :
  ev_type ev = "unload" ->
  u_set (updateData ev t) !! "endTime" = Some (VDate t)
  /\ u_inc (updateData ev t) !! "endTime" = None
  /\ u_set (updateData ev t) !! "duration" = None
  /\ u_inc (updateData ev t) !! "duration" = None.
Proof.
  intros E. unfold updateData. rewrite E. destruct (ev_page ev);
    vm_compute; repeat split; reflexivity.
Qed.

(** ** Applying an update *)

Lemma apply_update_lookup u d d' p :
  apply_update u d = Ok d' ->
  u_inc u !! p = None ->
  d' !! p = match u_set u !! p with Some v => Some v | None => d !! p end.
Proof.
  unfold apply_update. destruct (first_mismatch _ _); [discriminate|].
  intros [= <-] Hinc. rewrite lookup_merge, Hinc, lookup_union.
  destruct (u_set u !! p), (d !! p); reflexivity.
Qed.

(** ** The collection *)

Lemma list_find_insert_preserved (P : doc -> Prop) `{!forall x, Decision (P x)}
    (l : list doc) i d d' :
  l !! i = Some d -> (P d <-> P d') ->
  list_find P (<[i := d']> l)
  = (fun jx => (jx.1, if decide (jx.1 = i) then d' else jx.2)) <$> list_find P l.
Proof.
  revert i. induction l as [|y l IH]; intros i Hi HP; [discriminate|].
  destruct i as [|i]; simpl in *.
  - injection Hi as ->.
    destruct (decide (P d)), (decide (P d')); try tauto; simpl.
    destruct (list_find P l) as [[j x]|]; reflexivity.
  - destruct (decide (P y)); simpl; [reflexivity|].
    rewrite (IH i Hi HP).
    destruct (list_find P l) as [[j x]|]; simpl; [|reflexivity].
    repeat case_decide; try lia; reflexivity.
Qed.

Lemma findOne_lookup pid sid (docs : list doc) d :
  findOne pid sid docs = Some d ->
  exists i, list_find (fun d => Is_true (matches pid sid d)) docs = Some (i, d)
            /\ docs !! i = Some d /\ matches pid sid d = true.
Proof.
  unfold findOne. destruct (list_find _ docs) as [[i x]|] eqn:E; [|discriminate].
  intros [= <-]. exists i. split; [reflexivity|].
  apply list_find_Some in E as (? & ? & _). split; [done|].
  by apply Is_true_true.
Qed.

Lemma findOneAndUpdate_Ok pid sid u (docs docs' : list doc) i d' :
  findOneAndUpdate pid sid u docs = Ok (docs', (i, d')) ->
  (exists d, list_find (fun d => Is_true (matches pid sid d)) docs = Some (i, d)
             /\ apply_update u d = Ok d' /\ docs' = <[i := d']> docs)
  \/ (list_find (fun d => Is_true (matches pid sid d)) docs = None
      /\ apply_update u (u_setOnInsert u ∪ key_fields pid sid) = Ok d'
      /\ existsb (has_sessionId sid) docs = false
      /\ docs' = (docs ++ [d'])%list /\ i = length docs).
Proof.
  unfold findOneAndUpdate. destruct (first_conflict _); [discriminate|].
  destruct (list_find _ docs) as [[j d]|] eqn:E.
  - destruct (apply_update u d) as [d1|] eqn:A; simpl; [|discriminate].
    intros [= <- <- <-]. left. eauto.
  - destruct (apply_update u _) as [d1|] eqn:A; simpl; [|discriminate].
    destruct (existsb _ docs) eqn:X; [discriminate|].
    intros [= <- <- <-]. right. auto.
Qed.

(** ** One aggregation step *)

Lemma preserves_trans d1 d2 d3 : preserves d1 d2 -> preserves d2 d3 -> preserves d1 d3.
Proof.
  unfold preserves. intros (A1 & A2 & A3 & A4) (B1 & B2 & B3 & B4).
  repeat split; try congruence. auto.
Qed.

Lemma preserves_matches d d' pid sid :
  preserves d d' ->
  matches pid sid d' = matches pid sid d /\ has_sessionId sid d' = has_sessionId sid d.
Proof.
  intros (A1 & A2 & _). unfold matches, has_sessionId. rewrite A1, A2. auto.
Qed.

Lemma updateData_preserves ev t d d' :
  apply_update (updateData ev t) d = Ok d' -> preserves d d'.
Proof.
  intros H.
  destruct (updateData_keeps ev t "projectId") as [S1 I1]; [auto|].
  destruct (updateData_keeps ev t "sessionId") as [S2 I2]; [auto|].
  destruct (updateData_keeps ev t "startTime") as [S3 I3]; [auto|].
  destruct (updateData_isBounce ev t) as [S4 I4].
  unfold preserves.
  rewrite (apply_update_lookup _ _ _ _ H I1), (apply_update_lookup _ _ _ _ H I2),
    (apply_update_lookup _ _ _ _ H I3), (apply_update_lookup _ _ _ _ H I4), S1, S2, S3.
  repeat split. destruct S4 as [-> | ->]; auto.
Qed.

Lemma set_duration_lookup v d d' p :
  apply_update (set_ "duration" v noUpdate) d = Ok d' ->
  d' !! p = if String.eqb p "duration" then Some v else d !! p.
Proof.
  intros H. rewrite (apply_update_lookup _ _ _ p H) by apply lookup_empty.
  simpl. destruct (String.eqb_spec p "duration") as [-> | N].
  - by rewrite lookup_insert_eq.
  - rewrite lookup_insert_ne by congruence. by rewrite lookup_empty.
Qed.

Lemma set_duration_preserves v d d' :
  apply_update (set_ "duration" v noUpdate) d = Ok d' -> preserves d d'.
Proof.
  intros H. unfold preserves.
  rewrite !(set_duration_lookup _ _ _ _ H). simpl. auto.
Qed.

Lemma findByIdAndUpdate_Ok id u (docs docs' : list doc) :
  findByIdAndUpdate id u docs = Ok docs' ->
  match docs !! id with
  | Some d => exists d', apply_update u d = Ok d' /\ docs' = <[id := d']> docs
  | None => docs' = docs
  end.
Proof.
  unfold findByIdAndUpdate. destruct (first_conflict _); [discriminate|].
  destruct (docs !! id) as [d|]; [|congruence].
  destruct (apply_update u d) as [d'|]; simpl; [|discriminate].
  intros [= <-]. eauto.
Qed.

Lemma inserted_doc ev t pid sid d' :
  flips_bounce (ev_type ev) = false ->
  apply_update (updateData ev t)
    (u_setOnInsert (updateData ev t) ∪ key_fields pid sid) = Ok d' ->
  d' !! "projectId" = Some (VId pid)
  /\ d' !! "sessionId" = Some (VStr sid)
  /\ d' !! "isBounce" = Some (VBool true)
  /\ d' !! "startTime" = Some (VDate t).
Proof.
  intros F H.
  destruct (updateData_keeps ev t "projectId") as [S1 I1]; [auto|].
  destruct (updateData_keeps ev t "sessionId") as [S2 I2]; [auto|].
  destruct (updateData_keeps ev t "startTime") as [S3 I3]; [auto|].
  destruct (updateData_isBounce ev t) as [S4 I4].
  destruct (updateData_setOnInsert ev t) as (O1 & O2 & O3 & O4).
  assert (S5 : u_set (updateData ev t) !! "isBounce" = None).
  { revert F. unfold flips_bounce, updateData. destruct (ev_page ev); type_cases ev;
      intros; try discriminate; vm_compute; reflexivity. }
  rewrite (apply_update_lookup _ _ _ _ H I1), (apply_update_lookup _ _ _ _ H I2),
    (apply_update_lookup _ _ _ _ H I3), (apply_update_lookup _ _ _ _ H I4), S1, S2, S3, S5.
  rewrite !lookup_union, O1, O2, O3, O4. unfold key_fields.
  repeat split; reflexivity.
Qed.

Lemma flips_conflict ev t :
  first_conflict (update_paths (updateData ev t)) = None ->
  flips_bounce (ev_type ev) = false.
Proof.
  rewrite updateData_conflict. destruct (flips_bounce _); [discriminate|reflexivity].
Qed.

Lemma findOneAndUpdate_no_conflict pid sid u (docs : list doc) x :
  findOneAndUpdate pid sid u docs = Ok x -> first_conflict (update_paths u) = None.
Proof.
  unfold findOneAndUpdate. destruct (first_conflict _); [discriminate|reflexivity].
Qed.

Lemma updateSessionData_shape ev (s s' : list doc) r :
  updateSessionData ev s = (s', r) ->
  (s' = s /\ exists e, r = Throw e)
  \/ (exists i d d', list_find (key_matches ev) s = Some (i, d)
        /\ s' = <[i := d']> s /\ preserves d d')
  \/ (exists d', list_find (key_matches ev) s = None
        /\ existsb (has_sessionId (ev_sessionId ev)) s = false
        /\ s' = (s ++ [d'])%list
        /\ d' !! "projectId" = Some (VId (ev_projectId ev))
        /\ d' !! "sessionId" = Some (VStr (ev_sessionId ev))
        /\ d' !! "isBounce" = Some (VBool true)).
Proof.
  unfold updateSessionData.
  destruct (ev_timestamp ev) as [t|]; [|intros [= <- <-]; eauto].
  destruct (findOneAndUpdate _ _ _ s) as [[s1 [id session]]|e] eqn:F;
    [|intros [= <- <-]; eauto].
  pose proof (flips_conflict _ _ (findOneAndUpdate_no_conflict _ _ _ _ _ F)) as NF.
  apply findOneAndUpdate_Ok in F
    as [(d & Hfind & Hupd & ->) | (Hfind & Hupd & Hdup & -> & ->)].
  - pose proof (updateData_preserves _ _ _ _ Hupd) as P1.
    assert (Hlt : (id < length s)%nat).
    { apply list_find_Some in Hfind as (? & _). eauto using lookup_lt_Some. }
    assert (Base : forall r0, ((<[id := session]> s, r0) = (s', r)) ->
      (s' = s /\ exists e, r = Throw e)
      \/ (exists i d0 d', list_find (key_matches ev) s = Some (i, d0)
            /\ s' = <[i := d']> s /\ preserves d0 d')
      \/ (exists d', list_find (key_matches ev) s = None
            /\ existsb (has_sessionId (ev_sessionId ev)) s = false
            /\ s' = (s ++ [d'])%list
            /\ d' !! "projectId" = Some (VId (ev_projectId ev))
            /\ d' !! "sessionId" = Some (VStr (ev_sessionId ev))
            /\ d' !! "isBounce" = Some (VBool true))).
    { intros r0 [= <- <-]. right; left. eauto 10. }
    destruct (String.eqb _ "unload"); [|apply Base].
    destruct (session !! "startTime") as [[| | st | | | |]|]; try apply Base.
    destruct (findByIdAndUpdate _ _ _) as [s2|e] eqn:G; [|apply Base].
    apply findByIdAndUpdate_Ok in G.
    rewrite list_lookup_insert_eq in G by done.
    destruct G as (d2 & Hd2 & ->). rewrite list_insert_insert_eq.
    intros [= <- <-]. right; left. exists id, d, d2. split_and!; [done..|].
    eapply preserves_trans; [exact P1 | eapply set_duration_preserves; exact Hd2].
  - destruct (inserted_doc _ _ _ _ _ NF Hupd) as (K1 & K2 & K3 & K4).
    assert (Base : forall r0, (((s ++ [session])%list, r0) = (s', r)) ->
      (s' = s /\ exists e, r = Throw e)
      \/ (exists i d0 d', list_find (key_matches ev) s = Some (i, d0)
            /\ s' = <[i := d']> s /\ preserves d0 d')
      \/ (exists d', list_find (key_matches ev) s = None
            /\ existsb (has_sessionId (ev_sessionId ev)) s = false
            /\ s' = (s ++ [d'])%list
            /\ d' !! "projectId" = Some (VId (ev_projectId ev))
            /\ d' !! "sessionId" = Some (VStr (ev_sessionId ev))
            /\ d' !! "isBounce" = Some (VBool true))).
    { intros r0 [= <- <-]. right; right. eauto 10. }
    destruct (String.eqb _ "unload"); [|apply Base].
    destruct (session !! "startTime") as [[| | st | | | |]|]; try apply Base.
    destruct (findByIdAndUpdate _ _ _) as [s2|e] eqn:G; [|apply Base].
    apply findByIdAndUpdate_Ok in G.
    rewrite lookup_app_r, Nat.sub_diag in G by lia. simpl in G.
    destruct G as (d2 & Hd2 & ->).
    rewrite insert_app_r_alt, Nat.sub_diag by lia. simpl.
    destruct (set_duration_preserves _ _ _ Hd2) as (Q1 & Q2 & Q3 & Q4).
    intros [= <- <-]. right; right. exists d2. split_and!; try done; try congruence.
    rewrite (set_duration_lookup _ _ _ _ Hd2). simpl. done.
Qed.

Lemma matches_of_keys pid sid (d : doc) :
  d !! "projectId" = Some (VId pid) -> d !! "sessionId" = Some (VStr sid) ->
  matches pid sid d = true /\ forall sid', has_sessionId sid' d = String.eqb sid sid'.
Proof.
  intros A B. unfold matches, has_sessionId. rewrite A, B, N.eqb_refl, String.eqb_refl.
  auto.
Qed.


Lemma findOneAndUpdate_found ev t (s s1 : list doc) id session :
  findOneAndUpdate (ev_projectId ev) (ev_sessionId ev) (updateData ev t) s
    = Ok (s1, (id, session)) ->
  list_find (key_matches ev) s1 = Some (id, session) /\ s1 !! id = Some session.
Proof.
  intros F.
  pose proof (flips_conflict _ _ (findOneAndUpdate_no_conflict _ _ _ _ _ F)) as NF.
  apply findOneAndUpdate_Ok in F
    as [(d & Hfind & Hupd & ->) | (Hfind & Hupd & Hdup & -> & ->)].
  - pose proof (updateData_preserves _ _ _ _ Hupd) as P1.
    pose proof Hfind as Hf. apply list_find_Some in Hf as (Hl & _ & _).
    split.
    + unfold key_matches.
      rewrite (list_find_insert_preserved _ s id d session Hl), Hfind; simpl.
      * by rewrite decide_True.
      * destruct (preserves_matches _ _ (ev_projectId ev) (ev_sessionId ev) P1) as [-> _].
        reflexivity.
    + apply list_lookup_insert_eq. eauto using lookup_lt_Some.
  - destruct (inserted_doc _ _ _ _ _ NF Hupd) as (K1 & K2 & _).
    destruct (matches_of_keys _ _ _ K1 K2) as [M _].
    split.
    + unfold key_matches in *. rewrite list_find_app_r by done. simpl.
      rewrite decide_True by (by rewrite M). reflexivity.
    + rewrite lookup_app_r, Nat.sub_diag by lia. reflexivity.
Qed.

(** [updateSessionData] clamps the duration it writes for an [unload]
    event at zero. *)
Lemma updateSessionData_duration ev (s s' : list doc) session t d st :
  ev_type ev = "unload" ->
  ev_timestamp ev = Valid t ->
  updateSessionData ev s = (s', Ok session) ->
  findOne (ev_projectId ev) (ev_sessionId ev) s' = Some d ->
  d !! "startTime" = Some (VDate st) ->
  d !! "endTime" = Some (VDate t)
  /\ d !! "duration" = Some (VNum (Z.max 0 (t - st))).
Proof.
  intros Ety Ets. unfold updateSessionData. rewrite Ets, Ety. simpl.
  destruct (findOneAndUpdate _ _ _ s) as [[s1 [id session0]]|e] eqn:F; [|discriminate].
  destruct (findOneAndUpdate_found _ _ _ _ _ _ F) as [Hfound Hl].
  assert (Hend : session0 !! "endTime" = Some (VDate t)).
  { destruct (updateData_unload ev t Ety) as (U1 & U2 & _).
    apply findOneAndUpdate_Ok in F as [(d0 & _ & Hupd & _) | (_ & Hupd & _)];
      by rewrite (apply_update_lookup _ _ _ _ Hupd U2), U1. }
  assert (Direct : forall r0, (s1, r0) = (s', Ok session) ->
            findOne (ev_projectId ev) (ev_sessionId ev) s' = Some d ->
            d = session0).
  { intros r0 [= <- _]. unfold findOne. fold (key_matches ev). rewrite Hfound.
    simpl. congruence. }
  destruct (session0 !! "startTime") as [v|] eqn:Est.
  2:{ intros H1 H2 H3. rewrite (Direct _ H1 H2) in H3. congruence. }
  destruct v; try (intros H1 H2 H3; rewrite (Direct _ H1 H2) in H3; congruence).
  destruct (findByIdAndUpdate _ _ s1) as [s2|e] eqn:G; [|discriminate].
  apply findByIdAndUpdate_Ok in G. rewrite Hl in G. destruct G as (d2 & Hd2 & ->).
  intros [= <- _]. unfold findOne. fold (key_matches ev).
  rewrite (list_find_insert_preserved _ s1 id session0 d2 Hl), Hfound; simpl.
  2:{ unfold key_matches.
      destruct (preserves_matches _ _ (ev_projectId ev) (ev_sessionId ev)
                  (set_duration_preserves _ _ _ Hd2)) as [-> _]. reflexivity. }
  rewrite decide_True by done. intros [= <-].
  rewrite !(set_duration_lookup _ _ _ _ Hd2). simpl.
  rewrite Est, Hend. intros [= ->]. auto.
Qed.

(** An event that sets [isBounce] is refused by the storage layer: its
    update names [isBounce] under both [$set] and [$setOnInsert]. *)
Lemma flipping_event_rejected ev t (s : list doc) :
  flips_bounce (ev_type ev) = true ->
  ev_timestamp ev = Valid t ->
  updateSessionData ev s = (s, Throw (ConflictingUpdateOperators "isBounce")).
Proof.
  intros F E. unfold updateSessionData, findOneAndUpdate.
  rewrite E, updateData_conflict, F. reflexivity.
Qed.

(** Were the conflict not checked, the document a lone pageview inserts
    would carry the [$set] value of [isBounce], which is [false]. *)
Lemma pageview_insert_unchecked ev t pid sid d' :
  ev_type ev = "pageview" ->
  apply_update (updateData ev t)
    (u_setOnInsert (updateData ev t) ∪ key_fields pid sid) = Ok d' ->
  d' !! "isBounce" = Some (VBool false).
Proof.
  intros E H. destruct (updateData_isBounce ev t) as [_ I].
  rewrite (apply_update_lookup _ _ _ _ H I).
  revert H. unfold updateData. rewrite E. destruct (ev_page ev); reflexivity.
Qed.

Lemma pageview_always_sets_isBounce ev t :
  ev_type ev = "pageview" ->
  u_set (updateData ev t) !! "isBounce" = Some (VBool false)
  /\ u_setOnInsert (updateData ev t) !! "isBounce" = Some (VBool true).
Proof.
  intros E. unfold updateData. rewrite E. destruct (ev_page ev); vm_compute; auto.
Qed.

(** ** Bounce flag *)

Lemma isBounce_step ev (s : list doc) pid sid d :
  findOne pid sid s = Some d ->
  d !! "isBounce" = Some (VBool false) ->
  exists d', findOne pid sid (updateSessionData ev s).1 = Some d'
             /\ d' !! "isBounce" = Some (VBool false).
Proof.
  intros Hd Hb.
  destruct (updateSessionData ev s) as [s' r] eqn:U. simpl.
  apply updateSessionData_shape in U
    as [[-> _] | [(i & d0 & d0' & Hfind & -> & P) | (dn & Hfind & _ & -> & _)]].
  - eauto.
  - apply findOne_lookup in Hd as (j & Hj & Hlj & _).
    apply list_find_Some in Hfind as (Hli & _ & _).
    unfold findOne.
    rewrite (list_find_insert_preserved _ s i d0 d0' Hli), Hj; simpl.
    + case_decide as E; [|eauto]. subst j.
      assert (d = d0) as -> by congruence.
      exists d0'. split; [reflexivity|]. apply P, Hb.
    + destruct (preserves_matches _ _ pid sid P) as [-> _]. reflexivity.
  - apply findOne_lookup in Hd as (j & Hj & _).
    unfold findOne. rewrite (list_find_app_l _ _ _ _ _ Hj). simpl. eauto.
Qed.

Lemma isBounce_created ev (s : list doc) pid sid d' :
  findOne pid sid s = None ->
  findOne pid sid (updateSessionData ev s).1 = Some d' ->
  d' !! "isBounce" = Some (VBool true).
Proof.
  intros Hn.
  assert (Hnone : list_find (fun d => Is_true (matches pid sid d)) s = None).
  { revert Hn. unfold findOne. destruct (list_find _ s); [discriminate|done]. }
  destruct (updateSessionData ev s) as [s' r] eqn:U. simpl.
  apply updateSessionData_shape in U
    as [[-> _] | [(i & d0 & d0' & Hfind & -> & P) | (dn & Hfind & _ & -> & _ & _ & B)]].
  - congruence.
  - apply list_find_Some in Hfind as (Hli & _ & _).
    unfold findOne.
    rewrite (list_find_insert_preserved _ s i d0 d0' Hli), Hnone; [discriminate|].
    destruct (preserves_matches _ _ pid sid P) as [-> _]. reflexivity.
  - unfold findOne. rewrite list_find_app_r by done. simpl.
    case_decide; simpl; [|discriminate]. congruence.
Qed.

(** C2. Once the session stored for a key has [isBounce = false], it
    has [isBounce = false] after any further sequence of aggregated
    events; and a session that an aggregation step creates starts with
    [isBounce = true]. *)
Theorem isBounce_monotone (evs : list eventData) (sessions : list doc) pid sid :
  (forall d,
      findOne pid sid sessions = Some d ->
      d !! "isBounce" = Some (VBool false) ->
      exists d', findOne pid sid (aggregate evs sessions) = Some d'
                 /\ d' !! "isBounce" = Some (VBool false))
  /\ (forall ev d',
        findOne pid sid sessions = None ->
        findOne pid sid (updateSessionData ev sessions).1 = Some d' ->
        d' !! "isBounce" = Some (VBool true)).
Proof.
  split; [|intros; eauto using isBounce_created].
  revert sessions. induction evs as [|ev evs IH]; intros sessions d Hd Hb; simpl.
  - eauto.
  - destruct (isBounce_step ev sessions pid sid d Hd Hb) as (d1 & H1 & B1).
    exact (IH _ d1 H1 B1).
Qed.

(** ** Session keys *)






Lemma isBounce_monotone_witness :
  (exists d', findOne 1 "S"
                (aggregate [sampleEvent 1 "S" "scroll" 2000;
                            sampleEvent 1 "S" "unload" 3000] [engagedSession])
              = Some d'
              /\ d' !! "isBounce" = Some (VBool false))
  /\ (forall d',
        findOne 7 "new" (updateSessionData (sampleEvent 7 "new" "scroll" 5) [engagedSession]).1
        = Some d' ->
        d' !! "isBounce" = Some (VBool true)).
Proof.
  split.
  - apply (proj1 (isBounce_monotone
                    [sampleEvent 1 "S" "scroll" 2000; sampleEvent 1 "S" "unload" 3000]
                    [engagedSession] 1%N "S") engagedSession); reflexivity.
  - intros d'.
    apply (proj2 (isBounce_monotone [] [engagedSession] 7%N "new")).
    reflexivity.
Defined.




(** C1. A pageview update always carries [isBounce = false] under
    [$set], next to [isBounce = true] under [$setOnInsert]; the storage
    layer refuses it, so the lone pageview of Scenario B leaves no
    session with [isBounce = true]: it leaves no session at all. *)
Theorem lone_pageview_leaves_no_bounce_session :
  u_set (updateData (sampleEvent 1 "S2" "pageview" 500) 500) !! "isBounce"
  = Some (VBool false)
  /\ updateSessionData (sampleEvent 1 "S2" "pageview" 500) []
     = ([], Throw (ConflictingUpdateOperators "isBounce"))
  /\ findOne 1 "S2" (aggregate [sampleEvent 1 "S2" "pageview" 500] []) = None.
Proof.
  split_and!; vm_compute; reflexivity.
Qed.


(** ** Queue priority *)

(** C7 (counterexample). An [unload] event gets the same priority hint
    as a [click] event, so no strict ranking on hints puts it above. *)
Lemma unload_priority_equals_click :
  ~ (forall a b : eventData,
       ev_type a = "unload" -> ev_type b = "click" -> priority a <> priority b).
Proof.
  intros H.
  exact (H (sampleEvent 1 "S" "unload" 0) (sampleEvent 1 "S" "click" 0)
           eq_refl eq_refl eq_refl).
Qed.

(** C7 (as amended). The hint distinguishes [pageview] only: a
    [pageview] event is queued with hint 10, which is larger than the
    hint of every event of another type, and all events of other types,
    [unload] included, are queued with the same hint 5. *)
Theorem priority_hint_distinguishes_pageview_only (a b : eventData) q jobs :
  redisReady q = true -> eventQueue q = Some jobs -> add_throws q = false ->
  ev_type b <> "pageview" ->
  (addEvent a q).2 = true
  /\ eventQueue (addEvent a q).1 = Some (jobs ++ [mkJob a (priority a) 0])%list
  /\ (ev_type a = "pageview" -> priority a = 10 /\ priority b < priority a)
  /\ (ev_type a <> "pageview" -> priority a = 5 /\ priority a = priority b).
Proof.
  intros R Q T Nb. unfold addEvent, priority. rewrite R, Q, T. simpl.
  destruct (String.eqb_spec (ev_type b) "pageview"); [done|].
  destruct (String.eqb_spec (ev_type a) "pageview"); split_and!; try done; lia.
Qed.

Lemma priority_hint_distinguishes_pageview_only_witness :
  priority (sampleEvent 1 "S" "pageview" 0) = 10
  /\ priority (sampleEvent 1 "S" "unload" 0) < priority (sampleEvent 1 "S" "pageview" 0)
  /\ priority (sampleEvent 1 "S" "unload" 0) = priority (sampleEvent 1 "S" "scroll" 0).
Proof.
  pose proof (priority_hint_distinguishes_pageview_only
                (sampleEvent 1 "S" "pageview" 0) (sampleEvent 1 "S" "unload" 0)
                (mkQueue true (Some []) false) [] eq_refl eq_refl eq_refl
                ltac:(discriminate)) as (_ & _ & P & _).
  pose proof (priority_hint_distinguishes_pageview_only
                (sampleEvent 1 "S" "unload" 0) (sampleEvent 1 "S" "scroll" 0)
                (mkQueue true (Some []) false) [] eq_refl eq_refl eq_refl
                ltac:(discriminate)) as (_ & _ & _ & U).
  destruct (P eq_refl) as [P1 P2]. destruct (U ltac:(discriminate)) as [_ U2].
  auto.
Defined.

(** ** Geolocation *)

Lemma getGeoInfo_never_throws fetch ip : exists g, getGeoInfo fetch ip = Ok g.
Proof.
  unfold getGeoInfo, try_catch. destruct (getGeoInfo_try fetch ip); eauto.
Qed.

Lemma getGeoInfo_skips fetch ip :
  skipsLookup ip = true -> getGeoInfo fetch ip = Ok geoLocal.
Proof.
  intros H. unfold getGeoInfo, getGeoInfo_try. rewrite H. reflexivity.
Qed.

Lemma getGeoInfo_lookup_failure fetch ip :
  skipsLookup ip = false ->
  (exists e, fetch ip = Throw e) \/ (exists r, fetch ip = Ok r /\ resp_ok r = false) ->
  getGeoInfo fetch ip = Ok geoUnknown.
Proof.
  intros H [[e F] | (r & F & N)]; unfold getGeoInfo, getGeoInfo_try;
    rewrite H, F; simpl; [|rewrite N]; reflexivity.
Qed.

(** C8. The public address 172.217.0.1 is outside 172.16.0.0/12 and
    yet gets the "Local" result without any lookup; the loopback
    address 127.0.0.2 is looked up and gets what the service answers. *)
Theorem public_address_reported_local :
  AddressSpec.spec_isLocalAddress "172.217.0.1" = false
  /\ (forall fetch, getGeoInfo fetch "172.217.0.1" = Ok geoLocal)
  /\ AddressSpec.spec_isLocalAddress "127.0.0.2" = true
  /\ getGeoInfo
       (fun _ => Ok (mkResponse true
                       (Ok (JObj [("country", JStr "Nowhere"); ("city", JStr "X");
                                  ("region", JStr "Y")]))))
       "127.0.0.2"
     = Ok (mkGeo (JStr "Nowhere") (JStr "X") (JStr "Y") JNull JNull).
Proof.
  split_and!; [reflexivity | | reflexivity | reflexivity].
  intros fetch. apply getGeoInfo_skips. reflexivity.
Qed.

(** ** Timestamps *)

Lemma parseTimestamp_number now dp n :
  n <> 0 ->
  parseTimestamp now dp (JNum n)
  = new_Date (if Z.gtb n 1000000000000 then n else n * 1000).
Proof.
  intros H. unfold parseTimestamp. simpl.
  destruct (Z.eqb_spec n 0); [done|]. reflexivity.
Qed.

Lemma parseTimestamp_number_valid now dp n :
  n <> 0 -> - 8640000000000 <= n <= 8640000000000000 ->
  parseTimestamp now dp (JNum n)
  = Valid (if Z.gtb n 1000000000000 then n else n * 1000).
Proof.
  intros H R. rewrite parseTimestamp_number by done. unfold new_Date, maxTime.
  destruct (Z.gtb_spec n 1000000000000);
    (match goal with
     | |- context [Z.leb ?a ?b] => destruct (Z.leb_spec a b); [reflexivity | lia]
     end).
Qed.

Lemma parseTimestamp_fallback now dp v :
  match v with
  | JUndefined | JNull | JBool _ | JArr _ | JObj _ => True
  | JStr s => dp s = None
  | _ => False
  end ->
  parseTimestamp now dp v = Valid now.
Proof.
  unfold parseTimestamp, new_Date_string.
  destruct v as [| |[]| | | | |]; simpl; try done.
  intros ->. destruct (negb _); reflexivity.
Qed.

(** C4. The number 1e16, taken as milliseconds, is beyond the range of
    a date: the result is the Invalid Date, neither a valid instant nor
    the ingestion time. The number 0 is not scaled: it is taken as
    absent and gives the ingestion time. *)
Theorem parseTimestamp_number_out_of_range now dp :
  parseTimestamp now dp (JNum 10000000000000000) = InvalidDate
  /\ parseTimestamp now dp (JNum 0) = Valid now.
Proof.
  split; reflexivity.
Qed.

(** ** Validation *)

Lemma includes_validTypes v :
  includes validTypes v = true ->
  exists t, v = JStr t /\ In t validTypes /\ trim (toLowerCase t) = t.
Proof.
  destruct v; try discriminate. unfold includes.
  intros H. apply existsb_exists in H as (t & Hin & E).
  apply String.eqb_eq in E. subst t. exists s. split; [done|]. split; [done|].
  simpl in Hin. repeat destruct Hin as [<- | Hin]; try reflexivity. done.
Qed.



(** ** The ingestion endpoint *)

Section IngestionProperties.

Variable now : Z.
Variable Date_parse : string -> option Z.
Variable String_conv : jsval -> string.
Variable fetch : string -> result response.
Variable UAParser : string -> result uaResult.
Variable Project_findOne : string -> result (option N).

Let run_one := process_one now Date_parse String_conv Project_findOne.
Let run_batch := process_batch now Date_parse String_conv Project_findOne.
Let run := processEvents now Date_parse String_conv fetch UAParser Project_findOne.

Lemma process_one_trace ip ua dev geo raw w :
  exists extra,
    w_trace (run_one ip ua dev geo raw w).1 = (w_trace w ++ extra)%list
    /\ responses extra = [] /\ validated extra = [raw].
Proof.
  unfold run_one, process_one, save_directly.
  destruct (validateEventData _ _ _ raw) as [s|]; simpl.
  2:{ eexists; split; [reflexivity|]; split; reflexivity. }
  destruct (Project_findOne _) as [[pid|]|]; simpl;
    try (eexists; split; [rewrite <- ?app_assoc; reflexivity|]; split; reflexivity).
  destruct (addEvent _ _) as [q [|]]; simpl;
    try (eexists; split; [rewrite <- ?app_assoc; reflexivity|]; split; reflexivity).
  destruct (Event_create _ _) as [[ev1 id]|]; simpl;
    try (eexists; split; [rewrite <- ?app_assoc; reflexivity|]; split; reflexivity).
  destruct (updateSessionData _ _) as [s1 r]; simpl.
  eexists; split; [rewrite <- ?app_assoc; reflexivity|]; split; reflexivity.
Qed.

Lemma process_batch_spec ip ua dev geo batch : forall w p s,
  exists extra,
    w_trace (run_batch ip ua dev geo batch w p s).1 = (w_trace w ++ extra)%list
    /\ responses extra = [] /\ validated extra = batch
    /\ ((run_batch ip ua dev geo batch w p s).2.1
        + (run_batch ip ua dev geo batch w p s).2.2
        = p + s + length batch)%nat.
Proof.
  induction batch as [|raw rest IH]; intros w p s; simpl.
  - exists []. rewrite app_nil_r. split_and!; try reflexivity. lia.
  - destruct (process_one_trace ip ua dev geo raw w) as (e1 & T1 & R1 & V1).
    unfold run_batch, run_one in *. simpl.
    destruct (process_one _ _ _ _ _ _ _ _ raw w) as [w' [|]]; simpl in *.
    + destruct (IH w' (S p) s) as (e2 & T2 & R2 & V2 & C2).
      exists (e1 ++ e2)%list. rewrite T2, T1, app_assoc.
      unfold responses, validated in *. rewrite !omap_app, R1, R2, V1, V2.
      split_and!; try reflexivity. lia.
    + destruct (IH w' p (S s)) as (e2 & T2 & R2 & V2 & C2).
      exists (e1 ++ e2)%list. rewrite T2, T1, app_assoc.
      unfold responses, validated in *. rewrite !omap_app, R1, R2, V1, V2.
      split_and!; try reflexivity. lia.
Qed.


(** C10. The 202 acknowledgment "Events received" is the first thing
    the handler does and its only response: every other step of the
    request comes after it. A body that is not an array, or is an
    empty array, is acknowledged in the same way and then dropped
    with a warning: nothing is validated, looked up, queued or
    stored. *)
Theorem acknowledged_before_processing req w :
  (exists rest,
      w_trace (run req w).1
      = (w_trace w ++ Respond 202 "Events received" :: rest)%list
      /\ responses rest = [])
  /\ (is_array (req_body req) = false \/ items (req_body req) = [] ->
      (run req w).2 = None
      /\ w_store (run req w).1 = w_store w
      /\ w_queue (run req w).1 = w_queue w
      /\ w_trace (run req w).1
         = (w_trace w
              ++ [Respond 202 "Events received";
                  LogWarn "Invalid events data received - not an array or empty"])%list).
Proof.
  unfold run, processEvents.
  destruct (negb (is_array (req_body req))
            || (length (items (req_body req)) =? 0)%nat) eqn:C.
  - split.
    + eexists. simpl. rewrite <- app_assoc. split; reflexivity.
    + intros _. simpl. rewrite <- app_assoc. auto.
  - split.
    + match goal with
      | |- context [process_batch ?a ?b ?c ?d ?ip ?ua ?dev ?geo ?batch ?w0 0%nat 0%nat] =>
          destruct (process_batch_spec ip ua dev geo batch w0 0%nat 0%nat)
            as (e & T & R & V & _);
          unfold run_batch in *;
          destruct (process_batch a b c d ip ua dev geo batch w0 0%nat 0%nat)
            as [w' [p s]]
      end.
      simpl in *. eexists. rewrite T, <- !app_assoc. split; [reflexivity|].
      unfold responses in *. simpl. rewrite omap_app, R. reflexivity.
    + intros [N | N].
      * rewrite N in C. discriminate.
      * rewrite N in C. simpl in C. rewrite orb_true_r in C. discriminate.
Qed.

End IngestionProperties.



Lemma acknowledged_before_processing_witness :
  (sampleRun (JObj [("projectId", JStr "T1")]) queueUp).2 = None
  /\ w_store (sampleRun (JObj [("projectId", JStr "T1")]) queueUp).1 = mkStore [] []
  /\ w_queue (sampleRun (JObj [("projectId", JStr "T1")]) queueUp).1 = queueUp
  /\ w_trace (sampleRun (JObj [("projectId", JStr "T1")]) queueUp).1
     = [Respond 202 "Events received";
        LogWarn "Invalid events data received - not an array or empty"].
Proof.
  apply (proj2 (acknowledged_before_processing sampleNow noDateParse noStringConv
                  fetchDown sampleUA sampleProjects
                  (sampleRequest (JObj [("projectId", JStr "T1")]))
                  (emptyWorld queueUp))).
  left. reflexivity.
Defined.

(** An otherwise well-formed event whose timestamp is the number 1e16
    is counted as skipped when it is saved directly, where the same
    event with a timestamp in range is counted as processed. *)
Lemma bad_timestamp_event_skipped :
  (sampleRun (JArr [rawEvent "S1" "scroll" (JNum 10000000000000000)]) queueDown).2
  = Some (0, 1)%nat
  /\ (sampleRun (JArr [rawEvent "S1" "scroll" (JNum 1700000000000)]) queueDown).2
     = Some (1, 0)%nat.
Proof.
  split; vm_compute; reflexivity.
Qed.

(** The lone pageview of Scenario B, saved directly: the raw event is
    stored, the session update is refused, the event is counted as
    skipped and no session exists. *)
Lemma lone_pageview_end_to_end :
  (sampleRun (JArr [rawEvent "S2" "pageview" (JNum 500)]) queueDown).2 = Some (0, 1)%nat
  /\ length (st_events (w_store
       (sampleRun (JArr [rawEvent "S2" "pageview" (JNum 500)]) queueDown).1)) = 1%nat
  /\ st_sessions (w_store
       (sampleRun (JArr [rawEvent "S2" "pageview" (JNum 500)]) queueDown).1) = [].
Proof.
  split_and!; vm_compute; reflexivity.
Qed.

(** A record of type ["event"] passes the validator and is then refused
    by the Event schema, whose enum lacks that type: saved directly it
    is counted as skipped. *)
Lemma event_type_refused_by_schema :
  (sampleRun (JArr [rawEvent "S1" "event" (JNum 1700000000000)]) queueDown).2
  = Some (0, 1)%nat
  /\ (sampleRun (JArr [rawEvent "S1" "custom" (JNum 1700000000000)]) queueDown).2
     = Some (1, 0)%nat.
Proof.
  split; vm_compute; reflexivity.
Qed.

(** ** Sanitised fields *)

Lemma substring0_length n s : (String.length (substring0 n s) <= n)%nat.
Proof.
  unfold substring0. revert s. induction n as [|n IH]; intros [|a s]; simpl; try lia.
  specialize (IH s). lia.
Qed.

Lemma opt_str_length sc n v : (String.length (opt_str sc n v) <= n)%nat.
Proof.
  unfold opt_str. destruct (truthy v); [apply substring0_length | simpl; lia].
Qed.

Lemma clamp_bounds lo hi x : lo <= hi -> lo <= clamp lo hi x <= hi.
Proof. unfold clamp. lia. Qed.

(** The fields of an accepted record, with its type string [ty]. *)
Lemma validateEventData_fields now dp sc event s :
  validateEventData now dp sc event = Some s ->
  exists ty,
    get event "type" = JStr ty /\ In ty validTypes /\ s_type s = ty
    /\ s_page s = (if String.eqb ty "pageview" then sanitize_page sc event else None)
    /\ d_element (s_data s)
       = (if String.eqb ty "click" then sanitize_element sc event else None)
    /\ d_position (s_data s)
       = (if String.eqb ty "click" then sanitize_position event else None)
    /\ d_depth (s_data s)
       = (if String.eqb ty "scroll"
          then match get event "depth" with
               | JNum d => Some (clamp 0 100 d)
               | _ => None
               end
          else None)
    /\ d_route (s_data s)
       = (if String.eqb ty "route" && truthy (get event "from") && truthy (get event "to")
          then Some (substring0 2048 (js_String sc (get event "from")),
                     substring0 2048 (js_String sc (get event "to")))
          else None)
    /\ d_name (s_data s)
       = (if (String.eqb ty "event" || String.eqb ty "custom") && truthy (get event "name")
          then Some (substring0 100 (js_String sc (get event "name")))
          else None)
    /\ d_userAgent (s_data s)
       = (if truthy (get event "userAgent")
          then Some (substring0 500 (js_String sc (get event "userAgent")))
          else None)
    /\ d_language (s_data s)
       = (if truthy (get event "language")
          then Some (substring0 10 (js_String sc (get event "language")))
          else None).
Proof.
  unfold validateEventData.
  destruct (negb (truthy event) || _); [discriminate|].
  destruct (negb (truthy (get event "projectId")) || _ || _); [discriminate|].
  destruct (includes validTypes (get event "type")) eqn:I; simpl; [|discriminate].
  destruct (includes_validTypes _ I) as (ty & E & Hin & L).
  rewrite E. simpl js_String. rewrite L. intros [= <-]. simpl.
  exists ty. split_and!; reflexivity || assumption.
Qed.

(** X1. Whatever number a scroll record carries as [depth], the depth
    of the accepted event lies between 0 and 100, and only scroll events
    carry a depth. *)
Theorem sanitized_depth_bounded now dp sc event s d :
  validateEventData now dp sc event = Some s ->
  d_depth (s_data s) = Some d ->
  s_type s = "scroll" /\ 0 <= d <= 100.
Proof.
  intros V D. apply validateEventData_fields in V as (ty & _ & _ & T & _ & _ & _ & Hd & _).
  rewrite Hd in D. subst ty.
  destruct (String.eqb_spec (s_type s) "scroll"); [|discriminate].
  split; [assumption|].
  destruct (get event "depth"); try discriminate.
  injection D as <-. apply clamp_bounds. lia.
Qed.

Lemma sanitized_depth_bounded_witness :
  exists s,
    validateEventData sampleNow noDateParse noStringConv deepScroll = Some s
    /\ d_depth (s_data s) = Some 100
    /\ s_type s = "scroll" /\ 0 <= 100 <= 100.
Proof.
  eexists. split; [vm_compute; reflexivity|]. split; [reflexivity|].
  apply (sanitized_depth_bounded sampleNow noDateParse noStringConv deepScroll);
    reflexivity.
Defined.

(** X2. The coordinates of an accepted click lie between 0 and 10000,
    and only click events carry a position. *)
Theorem sanitized_position_bounded now dp sc event s x y :
  validateEventData now dp sc event = Some s ->
  d_position (s_data s) = Some (x, y) ->
  s_type s = "click" /\ 0 <= x <= 10000 /\ 0 <= y <= 10000.
Proof.
  intros V D.
  apply validateEventData_fields in V as (ty & _ & _ & T & _ & _ & Hp & _).
  rewrite Hp in D. subst ty.
  destruct (String.eqb_spec (s_type s) "click"); [|discriminate].
  split; [assumption|].
  unfold sanitize_position in D.
  destruct (truthy _); [|discriminate].
  destruct (get (get event "position") "x"); try discriminate.
  destruct (get (get event "position") "y"); try discriminate.
  injection D as <- <-. split; apply clamp_bounds; lia.
Qed.

Lemma sanitized_position_bounded_witness :
  exists s,
    validateEventData sampleNow noDateParse noStringConv farClick = Some s
    /\ d_position (s_data s) = Some (0, 10000)
    /\ s_type s = "click" /\ 0 <= 0 <= 10000 /\ 0 <= 10000 <= 10000.
Proof.
  eexists. split; [vm_compute; reflexivity|]. split; [reflexivity|].
  apply (sanitized_position_bounded sampleNow noDateParse noStringConv farClick);
    reflexivity.
Defined.

(** X3. The strings of an accepted event are cut to their caps: page
    URL and referrer and both ends of a route to 2048 characters, page
    title to 200, event name to 100, user agent to 500 and language to
    10. *)
Theorem sanitized_strings_capped now dp sc event s :
  validateEventData now dp sc event = Some s ->
  (forall p, s_page s = Some p ->
     (String.length (page_url p) <= 2048
      /\ String.length (page_title p) <= 200
      /\ String.length (page_referrer p) <= 2048)%nat)
  /\ (forall f t, d_route (s_data s) = Some (f, t) ->
        (String.length f <= 2048 /\ String.length t <= 2048)%nat)
  /\ (forall n, d_name (s_data s) = Some n -> (String.length n <= 100)%nat)
  /\ (forall u, d_userAgent (s_data s) = Some u -> (String.length u <= 500)%nat)
  /\ (forall l, d_language (s_data s) = Some l -> (String.length l <= 10)%nat).
Proof.
  intros V.
  apply validateEventData_fields in V
    as (ty & _ & _ & _ & Hp & _ & _ & _ & Hr & Hn & Hu & Hl).
  rewrite Hp, Hr, Hn, Hu, Hl. unfold sanitize_page.
  repeat apply conj; intros *;
    repeat (match goal with
            | |- (if ?c then _ else _) = _ -> _ => destruct c; [|intros [=]]
            end);
    intros [= <-]; subst; simpl;
    repeat apply conj; auto using substring0_length, opt_str_length.
Qed.

Lemma sanitized_strings_capped_witness :
  exists s,
    validateEventData sampleNow noDateParse noStringConv longLanguage = Some s
    /\ d_language (s_data s) = Some "en-GB-oxen"
    /\ (String.length "en-GB-oxen" <= 10)%nat.
Proof.
  eexists. split; [vm_compute; reflexivity|]. split; [reflexivity|].
  apply (proj2 (proj2 (proj2 (proj2
           (sanitized_strings_capped sampleNow noDateParse noStringConv longLanguage
              _ eq_refl))))).
  reflexivity.
Defined.

(** X4. An accepted event carries only the fields of its own type: a
    page only for [pageview], element and position only for [click], a
    route only for [route], a name only for [event] and [custom]. *)
Theorem sanitized_fields_follow_type now dp sc event s :
  validateEventData now dp sc event = Some s ->
  (s_type s <> "pageview" -> s_page s = None)
  /\ (s_type s <> "click" ->
      d_element (s_data s) = None /\ d_position (s_data s) = None)
  /\ (s_type s <> "scroll" -> d_depth (s_data s) = None)
  /\ (s_type s <> "route" -> d_route (s_data s) = None)
  /\ (s_type s <> "event" -> s_type s <> "custom" -> d_name (s_data s) = None).
Proof.
  intros V.
  apply validateEventData_fields in V
    as (ty & _ & _ & <- & Hp & He & Hpos & Hd & Hr & Hn & _).
  rewrite Hp, He, Hpos, Hd, Hr, Hn. repeat apply conj.
  - intros N. destruct (String.eqb_spec (s_type s) "pageview"); done.
  - intros N. destruct (String.eqb_spec (s_type s) "click"); done.
  - intros N. destruct (String.eqb_spec (s_type s) "scroll"); done.
  - intros N. destruct (String.eqb_spec (s_type s) "route"); done.
  - intros N1 N2. destruct (String.eqb_spec (s_type s) "event"); [done|].
    destruct (String.eqb_spec (s_type s) "custom"); done.
Qed.

Lemma sanitized_fields_follow_type_witness :
  exists s,
    validateEventData sampleNow noDateParse noStringConv deepScroll = Some s
    /\ s_page s = None.
Proof.
  eexists. split; [vm_compute; reflexivity|].
  apply (proj1 (sanitized_fields_follow_type sampleNow noDateParse noStringConv
                  deepScroll _ eq_refl)).
  discriminate.
Defined.

(** ** Timestamps: numbers, strings, and where the Invalid Date comes from *)

(** X5. A non-zero number of seconds up to 1e12 becomes that many
    seconds in milliseconds, and a larger number up to the end of the
    date range is taken as milliseconds as it is. *)
Theorem parseTimestamp_seconds_or_millis now dp n :
  0 < n <= maxTime ->
  parseTimestamp now dp (JNum n)
  = Valid (if Z.leb n 1000000000000 then n * 1000 else n).
Proof.
  intros R. unfold maxTime in R.
  rewrite parseTimestamp_number_valid by lia.
  destruct (Z.gtb_spec n 1000000000000), (Z.leb_spec n 1000000000000);
    try lia; reflexivity.
Qed.

Lemma parseTimestamp_seconds_or_millis_witness :
  parseTimestamp sampleNow noDateParse (JNum 1700000000) = Valid 1700000000000
  /\ parseTimestamp sampleNow noDateParse (JNum 1700000000123) = Valid 1700000000123.
Proof.
  split.
  - apply (parseTimestamp_seconds_or_millis sampleNow noDateParse 1700000000).
    unfold maxTime. lia.
  - apply (parseTimestamp_seconds_or_millis sampleNow noDateParse 1700000000123).
    unfold maxTime. lia.
Defined.

(** X6. When the host's date parser answers within the date range, a
    string always gives a valid instant: the parsed one when the string
    parses, the ingestion time when it does not or is empty. *)
Theorem parseTimestamp_string now dp s :
  (forall t, dp s = Some t -> Z.abs t <= maxTime) ->
  parseTimestamp now dp (JStr s)
  = Valid (if String.eqb s "" then now else default now (dp s)).
Proof.
  intros R. unfold parseTimestamp, new_Date_string. simpl.
  destruct (String.eqb s ""); simpl; [reflexivity|].
  destruct (dp s) as [t|] eqn:E; simpl; [|reflexivity].
  unfold new_Date. specialize (R t eq_refl).
  destruct (Z.leb_spec (Z.abs t) maxTime); [reflexivity | lia].
Qed.

Lemma parseTimestamp_string_witness :
  parseTimestamp sampleNow
    (fun s => if String.eqb s "2024-01-01T00:00:00Z" then Some 1704067200000 else None)
    (JStr "2024-01-01T00:00:00Z") = Valid 1704067200000
  /\ parseTimestamp sampleNow
       (fun s => if String.eqb s "2024-01-01T00:00:00Z" then Some 1704067200000 else None)
       (JStr "yesterday-ish") = Valid sampleNow.
Proof.
  split.
  - apply (parseTimestamp_string sampleNow
             (fun s => if String.eqb s "2024-01-01T00:00:00Z"
                       then Some 1704067200000 else None)
             "2024-01-01T00:00:00Z").
    simpl. intros t [= <-]. unfold maxTime. lia.
  - apply (parseTimestamp_string sampleNow
             (fun s => if String.eqb s "2024-01-01T00:00:00Z"
                       then Some 1704067200000 else None)
             "yesterday-ish").
    simpl. intros t [=].
Defined.

(** X7. With a date parser that answers within the date range, the
    Invalid Date can only come from a number whose millisecond value is
    out of range, or from a date object that is already invalid. *)
Theorem parseTimestamp_invalid_only_from_numbers now dp v :
  (forall s t, dp s = Some t -> Z.abs t <= maxTime) ->
  parseTimestamp now dp v = InvalidDate ->
  (exists n, v = JNum n /\ n <> 0
             /\ maxTime < Z.abs (if Z.gtb n 1000000000000 then n else n * 1000))
  \/ v = JDate InvalidDate.
Proof.
  intros R. destruct v as [| |b|n|s|d|l|fs]; try (destruct b); try discriminate.
  - destruct (Z.eq_dec n 0) as [->|N]; [discriminate|].
    rewrite parseTimestamp_number by done. unfold new_Date.
    destruct (Z.leb_spec (Z.abs (if Z.gtb n 1000000000000 then n else n * 1000)) maxTime);
      [discriminate|]. intros _. left. eauto.
  - unfold parseTimestamp, new_Date_string. simpl.
    destruct (String.eqb s ""); simpl; [discriminate|].
    destruct (dp s) as [t|] eqn:E; simpl; [|discriminate].
    unfold new_Date. specialize (R s t E).
    destruct (Z.leb_spec (Z.abs t) maxTime); [discriminate | lia].
  - unfold parseTimestamp. simpl. intros ->. right. reflexivity.
Qed.

Lemma parseTimestamp_invalid_only_from_numbers_witness :
  (exists n, JNum (-9000000000000) = JNum n /\ n <> 0
             /\ maxTime < Z.abs (if Z.gtb n 1000000000000 then n else n * 1000))
  \/ JNum (-9000000000000) = JDate InvalidDate.
Proof.
  apply (parseTimestamp_invalid_only_from_numbers sampleNow noDateParse).
  - intros s t [=].
  - reflexivity.
Defined.

(** ** Geolocation: answers and defaults *)

Lemma js_or_truthy a s : s <> "" -> truthy (js_or a (JStr s)) = true.
Proof.
  intros N. unfold js_or. destruct (truthy a) eqn:T; [assumption|]. simpl.
  destruct (String.eqb_spec s ""); [done | reflexivity].
Qed.

(** X8. Whatever the lookup service does, [getGeoInfo] returns a
    result and never throws, and the country, city and region of that
    result are never empty or absent. *)
Theorem getGeoInfo_always_answers fetch ip :
  exists g, getGeoInfo fetch ip = Ok g
            /\ truthy (country g) = true
            /\ truthy (city g) = true
            /\ truthy (region g) = true.
Proof.
  unfold getGeoInfo, getGeoInfo_try, try_catch.
  destruct (skipsLookup ip); [exists geoLocal; auto|].
  destruct (fetch ip) as [r|e]; simpl; [|exists geoUnknown; auto].
  destruct (resp_ok r); simpl; [|exists geoUnknown; auto].
  destruct (resp_json r) as [data|e]; simpl; [|exists geoUnknown; auto].
  destruct data; simpl; try (exists geoUnknown; split; [reflexivity | auto]);
    eexists; (split; [reflexivity|]); simpl;
    repeat split; apply js_or_truthy; discriminate.
Qed.

(** X9. When the address is not one of the skipped ones and the lookup
    fails in any way (the request throws, the response is not ok, its
    body is not JSON, or the JSON is [null]), the result is the
    "Unknown" record. *)
Theorem getGeoInfo_failure_gives_unknown fetch ip :
  skipsLookup ip = false ->
  (exists e, fetch ip = Throw e)
  \/ (exists r, fetch ip = Ok r
                /\ (resp_ok r = false
                    \/ (exists e, resp_json r = Throw e)
                    \/ resp_json r = Ok JNull)) ->
  getGeoInfo fetch ip = Ok geoUnknown.
Proof.
  intros S H. unfold getGeoInfo, getGeoInfo_try, try_catch. rewrite S.
  destruct H as [[e ->] | (r & -> & H)]; simpl; [reflexivity|].
  destruct (resp_ok r); simpl; [|reflexivity].
  destruct H as [H | [[e ->] | ->]]; [discriminate | reflexivity | reflexivity].
Qed.

Lemma getGeoInfo_failure_gives_unknown_witness :
  getGeoInfo (fun _ => Ok (mkResponse false (Ok (JObj [("country", JStr "France")]))))
    "203.0.113.7"
  = Ok geoUnknown.
Proof.
  apply getGeoInfo_failure_gives_unknown.
  - reflexivity.
  - right. eexists. split; [reflexivity|]. left. reflexivity.
Defined.

(** ** Client address *)

(** X10. The address of the request itself wins over every header, and
    a request that gives no address at all is taken as 127.0.0.1, which
    is geolocated as "Local" without a lookup. *)
Theorem getClientIP_precedence req fetch :
  (forall s, req_ip req = Some s -> s <> "" -> getClientIP req = s)
  /\ (req_ip req = None ->
      req_connection_remoteAddress req = None ->
      req_socket_remoteAddress req = None ->
      req_headers req !! "x-forwarded-for" = None ->
      req_headers req !! "x-real-ip" = None ->
      req_headers req !! "x-client-ip" = None ->
      getClientIP req = "127.0.0.1"
      /\ getGeoInfo fetch (getClientIP req) = Ok geoLocal).
Proof.
  unfold getClientIP. split.
  - intros s -> N. simpl. destruct (String.eqb_spec s ""); [done | reflexivity].
  - intros -> -> -> -> -> ->. simpl. split; reflexivity.
Qed.

Lemma getClientIP_precedence_witness :
  getClientIP
    (mkRequest JNull (Some "198.51.100.4") (Some "10.0.0.1") None
       (<["x-forwarded-for" := "203.0.113.9, 10.0.0.2"]> ∅))
  = "198.51.100.4"
  /\ getClientIP (mkRequest JNull None None None ∅) = "127.0.0.1".
Proof.
  split.
  - apply (proj1 (getClientIP_precedence
                    (mkRequest JNull (Some "198.51.100.4") (Some "10.0.0.1") None
                       (<["x-forwarded-for" := "203.0.113.9, 10.0.0.2"]> ∅))
                    fetchDown)); [reflexivity | discriminate].
  - apply (proj2 (getClientIP_precedence (mkRequest JNull None None None ∅) fetchDown));
      reflexivity.
Defined.

(** ** Device classification *)

Lemma or_default_nonempty a d : d <> "" -> or_default a d <> "".
Proof.
  intros N. unfold or_default, or_str. destruct a as [s|]; simpl; [|assumption].
  destruct (String.eqb_spec s ""); simpl; assumption.
Qed.

(** X11. [parseUserAgent] never throws, whatever the parsing library
    does, and the browser, the operating system and the device type it
    reports are never empty. *)
Theorem parseUserAgent_always_classifies UAParser ua :
  exists d, parseUserAgent UAParser ua = Ok d
            /\ browser_name d <> "" /\ os_name d <> "" /\ device_type d <> "".
Proof.
  unfold parseUserAgent, try_catch. destruct (UAParser ua) as [r|e]; simpl.
  - eexists. split; [reflexivity|]. simpl.
    repeat split; apply or_default_nonempty; discriminate.
  - exists unknownDevice. repeat split; discriminate.
Qed.

(** ** Aggregation: what a successful call stores *)

Lemma updateData_inc ev t :
  flips_bounce (ev_type ev) = false ->
  u_inc (updateData ev t)
  = match counter_path (ev_type ev) with
    | Some p => {[p := 1]}
    | None => ∅
    end.
Proof.
  unfold flips_bounce, counter_path, updateData.
  destruct (ev_page ev); type_cases ev; simpl; intros; try discriminate;
    vm_compute; reflexivity.
Qed.


Lemma first_mismatch_counter (d : doc) ty :
  match counter_path ty with
  | Some p => numeric_or_absent d p = true
  | None => True
  end ->
  first_mismatch d (match counter_path ty with
                    | Some p => {[p := 1]}
                    | None => ∅
                    end) = None.
Proof.
  unfold first_mismatch. destruct (counter_path ty) as [p|].
  - intros H. rewrite map_to_list_singleton. simpl. rewrite H. reflexivity.
  - intros _. rewrite map_to_list_empty. reflexivity.
Qed.

Lemma set_duration_applies v (d : doc) :
  exists d', apply_update (set_ "duration" v noUpdate) d = Ok d'.
Proof.
  unfold apply_update, first_mismatch. simpl. rewrite map_to_list_empty. simpl. eauto.
Qed.

Lemma set_duration_no_conflict v :
  first_conflict (update_paths (set_ "duration" v noUpdate)) = None.
Proof. vm_compute. reflexivity. Qed.

(** The document a successful call leaves for the key: the result of
    the upsert, with [duration] written over for an [unload] event. *)
Lemma updateSessionData_Ok ev (s s' : list doc) session t :
  ev_timestamp ev = Valid t ->
  updateSessionData ev s = (s', Ok session) ->
  exists base d,
    (findOne (ev_projectId ev) (ev_sessionId ev) s = Some base
     \/ (findOne (ev_projectId ev) (ev_sessionId ev) s = None
         /\ base = u_setOnInsert (updateData ev t)
                     ∪ key_fields (ev_projectId ev) (ev_sessionId ev)))
    /\ apply_update (updateData ev t) base = Ok session
    /\ findOne (ev_projectId ev) (ev_sessionId ev) s' = Some d
    /\ (forall p, p <> "duration" -> d !! p = session !! p).
Proof.
  intros Ets. unfold updateSessionData. rewrite Ets.
  destruct (findOneAndUpdate _ _ _ s) as [[s1 [id session0]]|e] eqn:F; [|discriminate].
  destruct (findOneAndUpdate_found _ _ _ _ _ _ F) as [Hfound Hl].
  assert (Hone : findOne (ev_projectId ev) (ev_sessionId ev) s1 = Some session0).
  { unfold findOne. fold (key_matches ev). by rewrite Hfound. }
  assert (Hbase : exists base,
    (findOne (ev_projectId ev) (ev_sessionId ev) s = Some base
     \/ (findOne (ev_projectId ev) (ev_sessionId ev) s = None
         /\ base = u_setOnInsert (updateData ev t)
                     ∪ key_fields (ev_projectId ev) (ev_sessionId ev)))
    /\ apply_update (updateData ev t) base = Ok session0).
  { apply findOneAndUpdate_Ok in F as [(d0 & Hf & Hupd & _) | (Hf & Hupd & _)].
    - exists d0. split; [|done]. left. unfold findOne. by rewrite Hf.
    - eexists. split; [|exact Hupd]. right. split; [|done]. unfold findOne. by rewrite Hf. }
  destruct Hbase as (base & Hb & Hupd).
  assert (Direct : (s1, Ok session0) = (s', Ok session) ->
    exists base d,
      (findOne (ev_projectId ev) (ev_sessionId ev) s = Some base
       \/ (findOne (ev_projectId ev) (ev_sessionId ev) s = None
           /\ base = u_setOnInsert (updateData ev t)
                       ∪ key_fields (ev_projectId ev) (ev_sessionId ev)))
      /\ apply_update (updateData ev t) base = Ok session
      /\ findOne (ev_projectId ev) (ev_sessionId ev) s' = Some d
      /\ (forall p, p <> "duration" -> d !! p = session !! p)).
  { intros [= <- <-]. exists base, session0. split_and!; done. }
  destruct (String.eqb _ "unload"); [|apply Direct].
  destruct (session0 !! "startTime") as [[| | st | | | |]|]; try apply Direct.
  destruct (findByIdAndUpdate _ _ s1) as [s2|e] eqn:G; [|discriminate].
  apply findByIdAndUpdate_Ok in G. rewrite Hl in G. destruct G as (d2 & Hd2 & ->).
  intros [= <- <-]. exists base, d2. split_and!; try done.
  - unfold findOne. fold (key_matches ev).
    rewrite (list_find_insert_preserved _ s1 id session0 d2 Hl), Hfound; simpl.
    + by rewrite decide_True.
    + unfold key_matches.
      destruct (preserves_matches _ _ (ev_projectId ev) (ev_sessionId ev)
                  (set_duration_preserves _ _ _ Hd2)) as [-> _]. reflexivity.
  - intros p N. rewrite (set_duration_lookup _ _ _ _ Hd2).
    destruct (String.eqb_spec p "duration"); done.
Qed.

(** When a call returns: the event type is not refused, the stored
    counter (if any) is a number, and a new session does not repeat a
    stored sessionId. *)
Lemma updateSessionData_succeeds ev (s : list doc) t :
  ev_timestamp ev = Valid t ->
  flips_bounce (ev_type ev) = false ->
  match findOne (ev_projectId ev) (ev_sessionId ev) s with
  | Some base =>
      match counter_path (ev_type ev) with
      | Some p => numeric_or_absent base p = true
      | None => True
      end
  | None => existsb (has_sessionId (ev_sessionId ev)) s = false
  end ->
  succeeded (updateSessionData ev s).2 = true.
Proof.
  intros Ets NF H. unfold updateSessionData, findOneAndUpdate. rewrite Ets.
  rewrite updateData_conflict, NF.
  unfold findOne in H.
  assert (Second : forall id (session : doc) (s1 : list doc) st,
    succeeded (match findByIdAndUpdate id
                       (set_ "duration" (VNum (Z.max 0 (t - st))) noUpdate) s1 with
               | Throw e => (s1, @Throw doc e)
               | Ok sessions2 => (sessions2, Ok session)
               end).2 = true).
  { intros id session s1 st. unfold findByIdAndUpdate.
    rewrite set_duration_no_conflict.
    destruct (s1 !! id) as [d|]; [|reflexivity].
    destruct (set_duration_applies (VNum (Z.max 0 (t - st))) d) as [d' ->].
    reflexivity. }
  destruct (list_find _ s) as [[i base]|]; simpl in H.
  - unfold apply_update. rewrite (updateData_inc _ _ NF), first_mismatch_counter by done.
    simpl. destruct (String.eqb _ "unload"); [|reflexivity].
    match goal with |- context [?d !! "startTime"] =>
      destruct (d !! "startTime") as [[| | st | | | |]|] end; try reflexivity.
    apply Second.
  - unfold apply_update. rewrite (updateData_inc _ _ NF), first_mismatch_counter.
    2:{ destruct (counter_path (ev_type ev)) as [p|] eqn:C; [|done].
        unfold numeric_or_absent. rewrite lookup_union.
        assert (u_setOnInsert (updateData ev t) !! p = None) as ->.
        { revert C. unfold counter_path, updateData.
          destruct (ev_page ev); type_cases ev; intros [= <-]; vm_compute; reflexivity. }
        assert (key_fields (ev_projectId ev) (ev_sessionId ev) !! p = None) as ->.
        { revert C. unfold counter_path, key_fields.
          type_cases ev; intros [= <-]; reflexivity. }
        reflexivity. }
    simpl. rewrite H. destruct (String.eqb _ "unload"); [|reflexivity].
    match goal with |- context [?d !! "startTime"] =>
      destruct (d !! "startTime") as [[| | st | | | |]|] end; try reflexivity.
    apply Second.
Qed.

Lemma preserves_refl (d : doc) : preserves d d.
Proof. unfold preserves. auto. Qed.

Lemma session_step ev (s : list doc) pid sid d :
  findOne pid sid s = Some d ->
  exists d', findOne pid sid (updateSessionData ev s).1 = Some d' /\ preserves d d'.
Proof.
  intros Hd.
  destruct (updateSessionData ev s) as [s' r] eqn:U. simpl.
  apply updateSessionData_shape in U
    as [[-> _] | [(i & d0 & d0' & Hfind & -> & P) | (dn & Hfind & _ & -> & _)]].
  - eauto using preserves_refl.
  - apply findOne_lookup in Hd as (j & Hj & Hlj & _).
    apply list_find_Some in Hfind as (Hli & _ & _).
    unfold findOne.
    rewrite (list_find_insert_preserved _ s i d0 d0' Hli), Hj; simpl.
    + case_decide as E; [|eauto using preserves_refl]. subst j.
      assert (d = d0) as -> by congruence. eauto.
    + destruct (preserves_matches _ _ pid sid P) as [-> _]. reflexivity.
  - apply findOne_lookup in Hd as (j & Hj & _).
    unfold findOne. rewrite (list_find_app_l _ _ _ _ _ Hj). simpl.
    eauto using preserves_refl.
Qed.

Lemma fieldOf_Some pid sid p (s : list doc) v :
  fieldOf pid sid p s = Some v <->
  exists d, findOne pid sid s = Some d /\ d !! p = Some v.
Proof.
  unfold fieldOf. destruct (findOne pid sid s) as [d|]; simpl.
  - split; [eauto|]. intros (d' & [= <-] & H). done.
  - split; [discriminate|]. intros (d' & [=] & _).
Qed.

(** X12. The [startTime] a session has is never changed, and the
    session is never lost, by any further sequence of aggregated
    events, whatever their keys and types. *)
Theorem startTime_set_once (evs : list eventData) (s : list doc) pid sid v :
  fieldOf pid sid "startTime" s = Some v ->
  fieldOf pid sid "startTime" (aggregate evs s) = Some v.
Proof.
  revert s. induction evs as [|ev evs IH]; intros s H; simpl; [assumption|].
  apply IH. apply fieldOf_Some in H as (d & Hd & Hv).
  destruct (session_step ev s pid sid d Hd) as (d' & Hd' & _ & _ & St & _).
  apply fieldOf_Some. exists d'. split; [assumption | congruence].
Qed.

Lemma startTime_set_once_witness :
  fieldOf 1 "S" "startTime"
    (aggregate [sampleEvent 1 "S" "unload" 500; sampleEvent 1 "S" "route" 7000;
                sampleEvent 2 "T" "scroll" 20]
       (aggregate [sampleEvent 1 "S" "scroll" 1000] []))
  = Some (VDate 1000).
Proof.
  apply (startTime_set_once _ (aggregate [sampleEvent 1 "S" "scroll" 1000] []) 1%N "S").
  vm_compute. reflexivity.
Defined.

(** X13. An event of type [pageview], [click] or [form] with a valid
    timestamp never updates or creates a session: its update is
    refused and the collection stays as it was. *)
Theorem bounce_writing_events_refused ev t (s : list doc) :
  ev_type ev = "pageview" \/ ev_type ev = "click" \/ ev_type ev = "form" ->
  ev_timestamp ev = Valid t ->
  updateSessionData ev s = (s, Throw (ConflictingUpdateOperators "isBounce")).
Proof.
  intros T E. apply (flipping_event_rejected ev t s); [|assumption].
  unfold flips_bounce. destruct T as [-> | [-> | ->]]; reflexivity.
Qed.

Lemma bounce_writing_events_refused_witness :
  updateSessionData (sampleEvent 1 "S" "click" 2000) [engagedSession]
  = ([engagedSession], Throw (ConflictingUpdateOperators "isBounce")).
Proof.
  apply (bounce_writing_events_refused (sampleEvent 1 "S" "click" 2000) 2000).
  - right. left. reflexivity.
  - reflexivity.
Defined.

(** X14. When [updateSessionData] returns for an [unload] event and the
    session has a [startTime], the session ends at the event's instant
    and its stored duration is the time since [startTime], or 0 when
    the event is stamped earlier. *)
Theorem unload_duration_clamped ev (s : list doc) t st :
  ev_type ev = "unload" ->
  ev_timestamp ev = Valid t ->
  succeeded (updateSessionData ev s).2 = true ->
  fieldOf (ev_projectId ev) (ev_sessionId ev) "startTime" (updateSessionData ev s).1
  = Some (VDate st) ->
  fieldOf (ev_projectId ev) (ev_sessionId ev) "endTime" (updateSessionData ev s).1
  = Some (VDate t)
  /\ fieldOf (ev_projectId ev) (ev_sessionId ev) "duration" (updateSessionData ev s).1
     = Some (VNum (Z.max 0 (t - st))).
Proof.
  intros Ety Ets. destruct (updateSessionData ev s) as [s' [session|e]] eqn:U;
    simpl; [|discriminate].
  intros _ H. apply fieldOf_Some in H as (d & Hd & Hst).
  destruct (updateSessionData_duration ev s s' session t d st Ety Ets U Hd Hst) as [A B].
  split; apply fieldOf_Some; eauto.
Qed.

Lemma unload_duration_clamped_witness :
  fieldOf 1 "S" "endTime"
    (updateSessionData (sampleEvent 1 "S" "unload" 4500) [engagedSession]).1
  = Some (VDate 4500)
  /\ fieldOf 1 "S" "duration"
       (updateSessionData (sampleEvent 1 "S" "unload" 4500) [engagedSession]).1
     = Some (VNum (Z.max 0 (4500 - 1000))).
Proof.
  apply (unload_duration_clamped (sampleEvent 1 "S" "unload" 4500) [engagedSession]);
    vm_compute; reflexivity.
Defined.






Lemma counter_path_accepted ty p :
  counter_path ty = Some p ->
  flips_bounce ty = false /\ p <> "duration".
Proof.
  unfold counter_path, flips_bounce.
  destruct (String.eqb_spec ty "scroll") as [->|_]; [intros [= <-]; split; done|].
  destruct (String.eqb_spec ty "route") as [->|_]; [intros [= <-]; split; done|].
  discriminate.
Qed.

(** X17. A [scroll] or [route] event on a stored session adds exactly
    one to the counter of its type ([events.scrolls], [events.routes]). *)
Theorem counter_incremented_by_one ev (s : list doc) t p n :
  ev_timestamp ev = Valid t ->
  counter_path (ev_type ev) = Some p ->
  fieldOf (ev_projectId ev) (ev_sessionId ev) p s = Some (VNum n) ->
  fieldOf (ev_projectId ev) (ev_sessionId ev) p (updateSessionData ev s).1
  = Some (VNum (n + 1)).
Proof.
  intros Ets C H. destruct (counter_path_accepted _ _ C) as [NF Np].
  apply fieldOf_Some in H as (base & Hb & Hn).
  pose proof (updateSessionData_succeeds ev s t Ets NF) as Hok.
  rewrite Hb, C in Hok. unfold numeric_or_absent in Hok. rewrite Hn in Hok.
  specialize (Hok eq_refl).
  destruct (updateSessionData ev s) as [s' [session|e]] eqn:U; [|discriminate].
  simpl.
  destruct (updateSessionData_Ok ev s s' session t Ets U)
    as (base' & d & [Hb' | [Hb' _]] & Hupd & Hd & Hsame); [|congruence].
  assert (base' = base) as -> by congruence.
  apply fieldOf_Some. exists d. split; [assumption|].
  rewrite Hsame by assumption.
  revert Hupd. unfold apply_update. destruct (first_mismatch _ _); [discriminate|].
  intros [= <-]. rewrite lookup_merge, lookup_union, (updateData_inc _ _ NF), C.
  rewrite lookup_singleton_eq, Hn.
  assert (u_set (updateData ev t) !! p = None) as ->.
  { revert C. unfold counter_path, updateData.
    destruct (ev_page ev); type_cases ev; intros [= <-]; vm_compute; reflexivity. }
  reflexivity.
Qed.

Lemma counter_incremented_by_one_witness :
  fieldOf 1 "S" "events.scrolls"
    (updateSessionData (sampleEvent 1 "S" "scroll" 3000)
       (aggregate [sampleEvent 1 "S" "scroll" 1000; sampleEvent 1 "S" "scroll" 2000] [])).1
  = Some (VNum (2 + 1)).
Proof.
  apply (counter_incremented_by_one (sampleEvent 1 "S" "scroll" 3000) _ 3000);
    vm_compute; reflexivity.
Defined.

Lemma updateSessionData_length ev (s : list doc) :
  (length s <= length (updateSessionData ev s).1 <= S (length s))%nat.
Proof.
  destruct (updateSessionData ev s) as [s' r] eqn:U. simpl.
  apply updateSessionData_shape in U
    as [[-> _] | [(i & d0 & d0' & _ & -> & _) | (dn & _ & _ & -> & _)]].
  - lia.
  - rewrite length_insert. lia.
  - rewrite length_app. simpl. lia.
Qed.

(** X18. Aggregation never deletes a session and creates at most one
    per event: after any sequence of events the collection has at least
    as many records as before and at most one more per event. *)
Theorem collection_never_shrinks (evs : list eventData) (s : list doc) :
  (length s <= length (aggregate evs s) <= length s + length evs)%nat.
Proof.
  revert s. induction evs as [|ev evs IH]; intros s; simpl; [lia|].
  pose proof (IH (updateSessionData ev s).1).
  pose proof (updateSessionData_length ev s). lia.
Qed.



(** ** The queue-backed job handler *)

(** X20. A job of type [pageview], [click] or [form] stores its raw
    event and then fails on the session update, so every attempt adds
    one more copy of the event and never a session: after [n] attempts
    the event is stored [n] times. *)
Theorem refused_job_stores_event_each_attempt ev t (st : store) (n : nat) :
  ev_type ev = "pageview" \/ ev_type ev = "click" \/ ev_type ev = "form" ->
  ev_timestamp ev = Valid t ->
  ev_sessionId ev <> "" ->
  succeeded (worker_processJob ev st).2 = false
  /\ Nat.iter n (fun st => (worker_processJob ev st).1) st
     = mkStore (st_events st ++ replicate n ev)%list (st_sessions st).
Proof.
  intros T Ets Hsid.
  assert (Step : forall st0, worker_processJob ev st0
            = (mkStore (st_events st0 ++ [ev])%list (st_sessions st0),
               Throw (ConflictingUpdateOperators "isBounce"))).
  { intros st0. unfold worker_processJob, Event_create.
    destruct (String.eqb_spec (ev_sessionId ev) ""); [done|].
    assert (existsb (String.eqb (ev_type ev)) schemaTypes = true) as ->.
    { destruct T as [-> | [-> | ->]]; reflexivity. }
    rewrite Ets. simpl.
    rewrite (flipping_event_rejected ev t (st_sessions st0)); [reflexivity| |assumption].
    unfold flips_bounce. destruct T as [-> | [-> | ->]]; reflexivity. }
  split; [rewrite Step; reflexivity|].
  induction n as [|n IH].
  - simpl. rewrite app_nil_r. destruct st; reflexivity.
  - rewrite replicate_S_end, Nat.iter_succ, IH, Step. simpl.
    rewrite <- app_assoc. reflexivity.
Qed.

Lemma refused_job_stores_event_each_attempt_witness :
  length (st_events
            (Nat.iter 3 (fun st => (worker_processJob (sampleEvent 1 "S" "pageview" 10) st).1)
               (mkStore [] []))) = 3%nat
  /\ st_sessions
       (Nat.iter 3 (fun st => (worker_processJob (sampleEvent 1 "S" "pageview" 10) st).1)
          (mkStore [] [])) = [].
Proof.
  pose proof (proj2 (refused_job_stores_event_each_attempt
                       (sampleEvent 1 "S" "pageview" 10) 10 (mkStore [] []) 3
                       (or_introl eq_refl) eq_refl ltac:(discriminate))) as H.
  rewrite H. split; reflexivity.
Defined.

(** ** The ingestion endpoint: queue, store and counters *)

Lemma addEvent_available ev q :
  available q = true ->
  (addEvent ev q).2 = true
  /\ available (addEvent ev q).1 = true
  /\ jobs_of (addEvent ev q).1 = (jobs_of q ++ [mkJob ev (priority ev) 0])%list.
Proof.
  unfold available, addEvent, jobs_of.
  destruct (eventQueue q) as [jobs|], (redisReady q), (add_throws q);
    simpl; try discriminate. auto.
Qed.

Lemma addEvent_unavailable ev q :
  available q = false -> addEvent ev q = (q, false).
Proof.
  unfold available, addEvent.
  destruct (eventQueue q) as [jobs|], (redisReady q), (add_throws q);
    simpl; try discriminate; reflexivity.
Qed.

Lemma Event_create_Ok ev events events' id :
  Event_create ev events = Ok (events', id) ->
  events' = (events ++ [ev])%list /\ event_ok ev = true.
Proof.
  unfold Event_create, event_ok.
  destruct (String.eqb (ev_sessionId ev) ""); [discriminate|].
  destruct (existsb _ schemaTypes); [|discriminate].
  destruct (ev_timestamp ev); [|discriminate].
  intros [= <- _]. auto.
Qed.

Section IngestionMore.

Variable now : Z.
Variable Date_parse : string -> option Z.
Variable String_conv : jsval -> string.
Variable fetch : string -> result response.
Variable UAParser : string -> result uaResult.
Variable Project_findOne : string -> result (option N).

Let step := process_one now Date_parse String_conv Project_findOne.
Let loop := process_batch now Date_parse String_conv Project_findOne.
Let handle := processEvents now Date_parse String_conv fetch UAParser Project_findOne.

(** The three ways one record of the batch can go. *)
Lemma process_one_effect ip ua dev geo raw w :
  let w' := (step ip ua dev geo raw w).1 in
  let ok := (step ip ua dev geo raw w).2 in
  (w_store w' = w_store w /\ w_queue w' = w_queue w /\ ok = false)
  \/ (exists s pid,
        Project_findOne (s_projectId s) = Ok (Some pid)
        /\ ((available (w_queue w) = true
             /\ w_store w' = w_store w
             /\ available (w_queue w') = true
             /\ (exists j, jobs_of (w_queue w') = (jobs_of (w_queue w) ++ [j])%list)
             /\ ok = true)
            \/ (available (w_queue w) = false
                /\ w_queue w' = w_queue w
                /\ exists ev,
                    event_ok ev = true
                    /\ st_events (w_store w') = (st_events (w_store w) ++ [ev])%list
                    /\ st_sessions (w_store w')
                       = (updateSessionData ev (st_sessions (w_store w))).1
                    /\ ok = succeeded (updateSessionData ev (st_sessions (w_store w))).2))).
Proof.
  unfold step, process_one.
  destruct (validateEventData _ _ _ raw) as [s|]; simpl; [|auto].
  destruct (Project_findOne (s_projectId s)) as [[pid|]|] eqn:P; simpl; [|auto..].
  set (ev := enrich _ _ _ _ _ _ _ _).
  destruct (available (w_queue w)) eqn:A.
  - destruct (addEvent_available ev _ A) as (Q1 & Q2 & Q3).
    destruct (addEvent ev (w_queue w)) as [q queued]. simpl in *. subst queued. simpl.
    right. exists s, pid. split; [assumption|]. left. split_and!; eauto.
  - rewrite (addEvent_unavailable ev _ A). simpl. unfold save_directly. simpl.
    destruct (Event_create ev (st_events (w_store w))) as [[events1 id]|e] eqn:C; simpl.
    + apply Event_create_Ok in C as [-> Ok1].
      destruct (updateSessionData ev (st_sessions (w_store w))) as [s1 r] eqn:U.
      simpl. rewrite ?U. simpl.
      right. exists s, pid. split; [assumption|]. right.
      split_and!; try reflexivity. exists ev. rewrite U. simpl.
      split_and!; try done.
    + auto.
Qed.

(** The handler on a non-empty array is the loop over its first 50
    records, from a world with the same store and queue. *)
Lemma processEvents_loop req w :
  is_array (req_body req) = true ->
  items (req_body req) <> [] ->
  exists ip ua dev geo w0,
    w_store w0 = w_store w /\ w_queue w0 = w_queue w
    /\ w_store (handle req w).1
       = w_store (loop ip ua dev geo (firstn maxBatch (items (req_body req))) w0 0 0)%nat.1
    /\ w_queue (handle req w).1
       = w_queue (loop ip ua dev geo (firstn maxBatch (items (req_body req))) w0 0 0)%nat.1
    /\ (handle req w).2
       = Some (loop ip ua dev geo (firstn maxBatch (items (req_body req))) w0 0 0)%nat.2.
Proof.
  intros A N. unfold handle, processEvents. rewrite A. simpl negb. simpl orb.
  destruct (items (req_body req)) as [|x l] eqn:I; [done|]. simpl Nat.eqb. cbv iota.
  match goal with
  | |- context [process_batch ?a ?b ?c ?d ?ip ?ua ?dev ?geo ?batch ?w0 0%nat 0%nat] =>
      exists ip, ua, dev, geo, w0; unfold loop;
      destruct (process_batch a b c d ip ua dev geo batch w0 0%nat 0%nat)
        as [w' [p s]]
  end.
  simpl. split_and!; reflexivity.
Qed.

Lemma loop_no_project ip ua dev geo batch :
  (forall tid pid, Project_findOne tid <> Ok (Some pid)) ->
  forall w p s,
    w_store (loop ip ua dev geo batch w p s).1 = w_store w
    /\ w_queue (loop ip ua dev geo batch w p s).1 = w_queue w
    /\ (loop ip ua dev geo batch w p s).2 = (p, (s + length batch)%nat).
Proof.
  intros H. induction batch as [|raw rest IH]; intros w p s; simpl.
  - split_and!; try reflexivity. f_equal. lia.
  - pose proof (process_one_effect ip ua dev geo raw w) as E. simpl in E.
    unfold step in E.
    destruct (process_one _ _ _ _ _ _ _ _ raw w) as [w' ok]. simpl in E.
    destruct E as [(S1 & Q1 & ->) | (s0 & pid & P & _)]; [|exfalso; eapply H; eauto].
    destruct (IH w' p (S s)) as (A & B & C). fold loop.
    rewrite A, B, C, S1, Q1. split_and!; try reflexivity. f_equal. lia.
Qed.

(** X21. When no active project answers to any tracking id, a batch
    changes neither the store nor the queue: every record of it is
    counted as skipped and none as processed. *)
Theorem no_active_project_nothing_stored req w :
  is_array (req_body req) = true ->
  items (req_body req) <> [] ->
  (forall tid pid, Project_findOne tid <> Ok (Some pid)) ->
  w_store (handle req w).1 = w_store w
  /\ w_queue (handle req w).1 = w_queue w
  /\ (handle req w).2
     = Some (0, Nat.min maxBatch (length (items (req_body req))))%nat.
Proof.
  intros A N H.
  destruct (processEvents_loop req w A N) as (ip & ua & dev & geo & w0 & S0 & Q0 & S1 & Q1 & R).
  destruct (loop_no_project ip ua dev geo (firstn maxBatch (items (req_body req))) H w0 0 0)%nat
    as (L1 & L2 & L3).
  rewrite S1, Q1, R, L1, L2, L3, S0, Q0, length_firstn. auto.
Qed.

Lemma loop_queue_up ip ua dev geo batch :
  forall w p s,
    available (w_queue w) = true ->
    w_store (loop ip ua dev geo batch w p s).1 = w_store w
    /\ available (w_queue (loop ip ua dev geo batch w p s).1) = true
    /\ exists new,
        jobs_of (w_queue (loop ip ua dev geo batch w p s).1)
        = (jobs_of (w_queue w) ++ new)%list
        /\ (p + length new = (loop ip ua dev geo batch w p s).2.1)%nat
        /\ ((loop ip ua dev geo batch w p s).2.1 + (loop ip ua dev geo batch w p s).2.2
            = p + s + length batch)%nat.
Proof.
  induction batch as [|raw rest IH]; intros w p s A; simpl.
  - split_and!; try done. exists []. rewrite app_nil_r. simpl. split_and!; try done; lia.
  - pose proof (process_one_effect ip ua dev geo raw w) as E. simpl in E.
    unfold step in E.
    destruct (process_one _ _ _ _ _ _ _ _ raw w) as [w' ok]. simpl in E. fold loop.
    destruct E as [(S1 & Q1 & ->)
                  | (s0 & pid & P & [(_ & S1 & A' & (j & J) & ->) | (A' & _)])];
      [| |congruence].
    + rewrite <- Q1 in A. destruct (IH w' p (S s) A) as (X & Y & new & Z1 & Z2 & Z3).
      rewrite X, Y, S1. split_and!; try done. exists new.
      rewrite Z1, Q1. split_and!; try done. lia.
    + destruct (IH w' (S p) s A') as (X & Y & new & Z1 & Z2 & Z3).
      rewrite X, Y, S1. split_and!; try done. exists (j :: new).
      rewrite Z1, J, <- app_assoc. simpl. split_and!; try done; lia.
Qed.

(** X22. While the queue takes jobs, the handler stores nothing itself:
    the store is left as it was and the queue gets exactly one new job,
    at its end, for each record counted as processed. *)
Theorem queued_events_are_not_stored req w :
  is_array (req_body req) = true ->
  items (req_body req) <> [] ->
  available (w_queue w) = true ->
  w_store (handle req w).1 = w_store w
  /\ exists p s new,
      (handle req w).2 = Some (p, s)
      /\ jobs_of (w_queue (handle req w).1) = (jobs_of (w_queue w) ++ new)%list
      /\ length new = p.
Proof.
  intros A N Q.
  destruct (processEvents_loop req w A N) as (ip & ua & dev & geo & w0 & S0 & Q0 & S1 & Q1 & R).
  rewrite <- Q0 in Q.
  destruct (loop_queue_up ip ua dev geo (firstn maxBatch (items (req_body req))) w0 0 0 Q)%nat
    as (L1 & _ & new & L2 & L3 & _).
  rewrite S1, Q1, R, L1, L2, S0, Q0.
  split; [reflexivity|].
  destruct (loop _ _ _ _ _ _ _ _).2 as [p s]. simpl in *.
  exists p, s, new. auto.
Qed.

Lemma loop_store_grows ip ua dev geo batch :
  forall w p s,
    exists new,
      st_events (w_store (loop ip ua dev geo batch w p s).1)
      = (st_events (w_store w) ++ new)%list
      /\ forallb event_ok new = true
      /\ (length (st_sessions (w_store w))
          <= length (st_sessions (w_store (loop ip ua dev geo batch w p s).1)))%nat
      /\ (available (w_queue w) = false ->
          w_queue (loop ip ua dev geo batch w p s).1 = w_queue w
          /\ ((loop ip ua dev geo batch w p s).2.1 - p <= length new)%nat).
Proof.
  induction batch as [|raw rest IH]; intros w p s; simpl.
  - exists []. rewrite app_nil_r. split_and!; try done. intros _. split; [done|]. simpl. lia.
  - pose proof (process_one_effect ip ua dev geo raw w) as E. simpl in E.
    unfold step in E.
    destruct (process_one _ _ _ _ _ _ _ _ raw w) as [w' ok]. simpl in E. fold loop.
    destruct E as [(S1 & Q1 & ->)
                  | (s0 & pid & P & [(A & S1 & A' & _ & ->)
                                    | (A & Q1 & ev & Ok1 & Ev & Se & ->)])].
    + destruct (IH w' p (S s)) as (new & X & Y & Z & W).
      exists new. rewrite X, S1. split_and!; try done.
      * by rewrite <- S1.
      * rewrite <- Q1. intros H. destruct (W H) as [W1 W2]. by rewrite W1.
    + destruct (IH w' (S p) s) as (new & X & Y & Z & W).
      exists new. rewrite X, S1. split_and!; try done.
      * by rewrite <- S1.
      * congruence.
    + pose proof (updateSessionData_length ev (st_sessions (w_store w))) as [Gr _].
      rewrite <- Se in Gr.
      destruct (succeeded _).
      * destruct (IH w' (S p) s) as (new & X & Y & Z & W).
        exists (ev :: new). rewrite X, Ev, <- app_assoc. simpl. rewrite Ok1, Y.
        split_and!; try done; [lia|].
        rewrite <- Q1. intros H. destruct (W H) as [W1 W2]. rewrite W1.
        split; [done | lia].
      * destruct (IH w' p (S s)) as (new & X & Y & Z & W).
        exists (ev :: new). rewrite X, Ev, <- app_assoc. simpl. rewrite Ok1, Y.
        split_and!; try done; [lia|].
        rewrite <- Q1. intros H. destruct (W H) as [W1 W2]. rewrite W1.
        split; [done | lia].
Qed.

(** X23. The handler only ever appends to the stored raw events, never
    removes a session, and every event it stores has a non-empty
    sessionId, a type of the schema's enum and a valid timestamp. *)
Theorem stored_events_follow_schema req w :
  is_array (req_body req) = true ->
  items (req_body req) <> [] ->
  (exists new,
      st_events (w_store (handle req w).1) = (st_events (w_store w) ++ new)%list
      /\ forallb event_ok new = true)
  /\ (length (st_sessions (w_store w))
      <= length (st_sessions (w_store (handle req w).1)))%nat.
Proof.
  intros A N.
  destruct (processEvents_loop req w A N) as (ip & ua & dev & geo & w0 & S0 & Q0 & S1 & Q1 & R).
  destruct (loop_store_grows ip ua dev geo (firstn maxBatch (items (req_body req))) w0 0 0)%nat
    as (new & X & Y & Z & _).
  rewrite S1, X, S0. split; [eauto|]. by rewrite <- S0.
Qed.

(** X24. While the queue does not take jobs, the handler leaves it as
    it was and saves directly: at least one raw event is stored for
    each record counted as processed. *)
Theorem unqueued_events_are_saved_directly req w :
  is_array (req_body req) = true ->
  items (req_body req) <> [] ->
  available (w_queue w) = false ->
  w_queue (handle req w).1 = w_queue w
  /\ exists p s,
      (handle req w).2 = Some (p, s)
      /\ (length (st_events (w_store w)) + p
          <= length (st_events (w_store (handle req w).1)))%nat.
Proof.
  intros A N Q.
  destruct (processEvents_loop req w A N) as (ip & ua & dev & geo & w0 & S0 & Q0 & S1 & Q1 & R).
  rewrite <- Q0 in Q.
  destruct (loop_store_grows ip ua dev geo (firstn maxBatch (items (req_body req))) w0 0 0)%nat
    as (new & X & _ & _ & W).
  destruct (W Q) as [W1 W2].
  rewrite S1, Q1, R, X, W1, S0, Q0. split; [reflexivity|].
  destruct (loop _ _ _ _ _ _ _ _).2 as [p s]. simpl in *.
  exists p, s. split; [reflexivity|]. rewrite length_app. lia.
Qed.

End IngestionMore.

(** X25. Every record of a non-empty batch within the cap is validated
    exactly once, in order, and counted exactly once, as processed or
    as skipped. *)
Theorem batch_within_cap_counted_once now Date_parse String_conv fetch UAParser
    Project_findOne req w :
  is_array (req_body req) = true ->
  (0 < length (items (req_body req)) <= maxBatch)%nat ->
  exists p s extra,
    (processEvents now Date_parse String_conv fetch UAParser Project_findOne req w).2
    = Some (p, s)
    /\ (p + s = length (items (req_body req)))%nat
    /\ w_trace (processEvents now Date_parse String_conv fetch UAParser
                  Project_findOne req w).1
       = (w_trace w ++ extra)%list
    /\ validated extra = items (req_body req).
Proof.
  intros A L. unfold processEvents. rewrite A. simpl negb. simpl orb.
  destruct (Nat.eqb_spec (length (items (req_body req))) 0) as [E|_]; [lia|].
  rewrite firstn_all2 by lia.
  match goal with
  | |- context [process_batch ?a ?b ?c ?d ?ip ?ua ?dev ?geo ?batch ?w0 0%nat 0%nat] =>
      destruct (process_batch_spec a b c d ip ua dev geo batch w0 0%nat 0%nat)
        as (e & T & R & V & C);
      destruct (process_batch a b c d ip ua dev geo batch w0 0%nat 0%nat)
        as [w' [p s]]
  end.
  simpl in *. exists p, s. eexists. split_and!.
  - reflexivity.
  - lia.
  - rewrite T. rewrite <- !app_assoc. reflexivity.
  - unfold validated in *. simpl. rewrite omap_app, V. simpl. apply app_nil_r.
Qed.

Lemma batch_within_cap_counted_once_witness :
  exists p s extra,
    (sampleRun threeScrolls queueDown).2 = Some (p, s)
    /\ (p + s = 3)%nat
    /\ w_trace (sampleRun threeScrolls queueDown).1 = ([] ++ extra)%list
    /\ validated extra = items threeScrolls.
Proof.
  apply (batch_within_cap_counted_once sampleNow noDateParse noStringConv fetchDown
           sampleUA sampleProjects (sampleRequest threeScrolls) (emptyWorld queueDown)).
  - reflexivity.
  - simpl. unfold maxBatch. lia.
Defined.

(** ** The fallback queue *)

Lemma Event_create_event_ok ev events :
  event_ok ev = true ->
  Event_create ev events = Ok ((events ++ [ev])%list, length events).
Proof.
  unfold Event_create, event_ok. intros H.
  apply andb_true_iff in H as [H H3]. apply andb_true_iff in H as [H1 H2].
  apply negb_true_iff in H1. rewrite H1, H2. cbn [negb].
  destruct (ev_timestamp ev); [reflexivity | discriminate].
Qed.

Lemma Event_create_refused ev events :
  event_ok ev = false -> succeeded (Event_create ev events) = false.
Proof.
  unfold Event_create, event_ok.
  destruct (String.eqb (ev_sessionId ev) ""); cbn [negb andb]; [reflexivity|].
  destruct (existsb (String.eqb (ev_type ev)) schemaTypes); cbn [negb andb];
    [|reflexivity].
  destruct (ev_timestamp ev); [discriminate | reflexivity].
Qed.

(** The raw event is stored exactly when the schema takes it, whatever
    happens to the session afterwards. *)
Lemma processEvent_events ev st :
  st_events (processEvent ev st).1
  = (st_events st ++ (if event_ok ev then [ev] else []))%list
  /\ (succeeded (processEvent ev st).2 = true -> event_ok ev = true).
Proof.
  unfold processEvent, legacy_processJob.
  destruct (event_ok ev) eqn:K.
  - rewrite Event_create_event_ok by done.
    destruct (ev_timestamp ev); [|simpl; auto].
    destruct (findOneAndUpdate _ _ _ _) as [[s1 [id session]]|e]; [|simpl; auto].
    destruct (String.eqb _ "unload"); [|simpl; auto].
    destruct (session !! "startTime") as [[| | st0 | | | |]|]; simpl; auto.
    destruct (findByIdAndUpdate _ _ _); simpl; auto.
  - pose proof (Event_create_refused ev (st_events st) K) as R.
    destruct (Event_create ev (st_events st)) as [[e1 i]|e]; [discriminate|].
    simpl. rewrite app_nil_r. split; [reflexivity | discriminate].
Qed.

Lemma processAll_events batch : forall st,
  st_events (processAll batch st).1 = (st_events st ++ filter (fun ev => event_ok ev = true) batch)%list
  /\ ((processAll batch st).2 = true -> forallb event_ok batch = true).
Proof.
  induction batch as [|ev rest IH]; intros st; simpl.
  - rewrite app_nil_r. auto.
  - destruct (processEvent_events ev st) as [E1 E2].
    destruct (processEvent ev st) as [st1 r]. simpl in *.
    destruct (IH st1) as [A B].
    destruct (processAll rest st1) as [st2 ok]. simpl in *.
    rewrite A, E1, <- app_assoc. split.
    + f_equal. destruct (event_ok ev) eqn:K.
      * rewrite filter_cons_True by done. reflexivity.
      * rewrite filter_cons_False by (rewrite K; done). reflexivity.
    + intros H. apply andb_true_iff in H as [H1 H2].
      rewrite (E2 H1), (B H2). reflexivity.
Qed.


(** A run on a non-empty queue that is not already being processed. *)
Lemma processFallbackQueue_run f :
  isProcessingFallback f = false ->
  fallbackQueue f <> [] ->
  processFallbackQueue f
  = mkFallback
      (if (processAll (firstn 10 (fallbackQueue f)) (fb_store f)).2
       then skipn 10 (fallbackQueue f) else fallbackQueue f)
      false
      (processAll (firstn 10 (fallbackQueue f)) (fb_store f)).1.
Proof.
  intros P N. unfold processFallbackQueue. rewrite P. simpl.
  destruct (Nat.eqb_spec (length (fallbackQueue f)) 0) as [E|_].
  - apply length_zero_iff_nil in E. contradiction.
  - destruct (processAll _ (fb_store f)) as [st ok]. simpl.
    destruct ok; [reflexivity|]. rewrite firstn_skipn. reflexivity.
Qed.

Lemma processAll_refused batch st :
  forallb event_ok batch = false -> (processAll batch st).2 = false.
Proof.
  intros H. destruct (processAll_events batch st) as [_ B].
  destruct (processAll batch st).2; [|reflexivity]. rewrite B in H; done.
Qed.



(** X27. A run in which some call throws leaves the queue exactly as it
    was, with the failed batch back at the front in its order, although
    the events of the batch that the schema takes have been stored: the
    next run stores them again. *)
Theorem fallback_failed_batch_requeued f :
  (processAll (firstn 10 (fallbackQueue f)) (fb_store f)).2 = false ->
  fallbackQueue (processFallbackQueue f) = fallbackQueue f
  /\ (isProcessingFallback f = false ->
      st_events (fb_store (processFallbackQueue f))
      = (st_events (fb_store f)
           ++ filter (fun ev => event_ok ev = true) (firstn 10 (fallbackQueue f)))%list).
Proof.
  intros Hok.
  assert (N : fallbackQueue f <> []) by (intros E; rewrite E in Hok; discriminate).
  destruct (isProcessingFallback f) eqn:P.
  - unfold processFallbackQueue. rewrite P. simpl. split; [reflexivity | discriminate].
  - rewrite (processFallbackQueue_run f P N), Hok. simpl.
    split; [reflexivity|]. intros _. apply processAll_events.
Qed.

(** X28. An event that the schema refuses, once among the first ten of
    the fallback queue, stays there: however many runs follow, the
    queue never changes, and every run stores the acceptable events of
    that batch once more. *)
Theorem refused_event_blocks_fallback_queue (rounds : nat) f :
  isProcessingFallback f = false ->
  forallb event_ok (firstn 10 (fallbackQueue f)) = false ->
  fallbackQueue (drainFallback rounds f) = fallbackQueue f
  /\ length (st_events (fb_store (drainFallback rounds f)))
     = (length (st_events (fb_store f))
        + rounds * length (filter (fun ev => event_ok ev = true)
                             (firstn 10 (fallbackQueue f))))%nat.
Proof.
  revert f. induction rounds as [|n IH]; intros f P H; simpl; [split; [done | lia]|].
  pose proof (processAll_refused _ (fb_store f) H) as Hfail.
  assert (N : fallbackQueue f <> []) by (intros E; rewrite E in H; discriminate).
  pose proof (processFallbackQueue_run f P N) as R. rewrite Hfail in R.
  destruct (processAll_events (firstn 10 (fallbackQueue f)) (fb_store f)) as [A _].
  rewrite R. cbn [fallbackQueue].
  destruct (Nat.eqb_spec (length (fallbackQueue f)) 0) as [Z|_].
  { apply length_zero_iff_nil in Z. contradiction. }
  destruct (IH (mkFallback (fallbackQueue f) false
                  (processAll (firstn 10 (fallbackQueue f)) (fb_store f)).1)
              eq_refl H) as [Q2 E2].
  cbn [fallbackQueue fb_store] in Q2, E2.
  rewrite Q2, E2, A, length_app. split; [reflexivity | lia].
Qed.



Lemma fallback_failed_batch_requeued_witness :
  fallbackQueue
    (processFallbackQueue (mkFallback waitingWithRefused false (mkStore [] [])))
  = waitingWithRefused
  /\ length (st_events (fb_store
       (processFallbackQueue (mkFallback waitingWithRefused false (mkStore [] [])))))
     = 3%nat.
Proof.
  pose proof (fallback_failed_batch_requeued
                (mkFallback waitingWithRefused false (mkStore [] []))) as H.
  destruct H as (Q & E); [vm_compute; reflexivity|].
  rewrite Q, (E eq_refl). split; reflexivity.
Defined.

Lemma refused_event_blocks_fallback_queue_witness :
  fallbackQueue (drainFallback 5 (mkFallback waitingWithRefused false (mkStore [] [])))
  = waitingWithRefused
  /\ length (st_events (fb_store
       (drainFallback 5 (mkFallback waitingWithRefused false (mkStore [] [])))))
     = 15%nat.
Proof.
  pose proof (refused_event_blocks_fallback_queue 5
                (mkFallback waitingWithRefused false (mkStore [] [])) eq_refl) as H.
  destruct H as (Q & E); [reflexivity|].
  rewrite Q, E. split; reflexivity.
Defined.


(** ** Witnesses for the ingestion endpoint *)

Lemma no_active_project_nothing_stored_witness :
  w_store (processEvents sampleNow noDateParse noStringConv fetchDown sampleUA noProjects
             (sampleRequest threeScrolls) (emptyWorld queueUp)).1 = mkStore [] []
  /\ w_queue (processEvents sampleNow noDateParse noStringConv fetchDown sampleUA noProjects
                (sampleRequest threeScrolls) (emptyWorld queueUp)).1 = queueUp
  /\ (processEvents sampleNow noDateParse noStringConv fetchDown sampleUA noProjects
        (sampleRequest threeScrolls) (emptyWorld queueUp)).2
     = Some (0, Nat.min maxBatch 3)%nat.
Proof.
  apply (no_active_project_nothing_stored sampleNow noDateParse noStringConv fetchDown
           sampleUA noProjects (sampleRequest threeScrolls) (emptyWorld queueUp)).
  - reflexivity.
  - discriminate.
  - intros tid pid. discriminate.
Defined.

Lemma queued_events_are_not_stored_witness :
  w_store (sampleRun threeScrolls queueUp).1 = mkStore [] []
  /\ exists p s new,
      (sampleRun threeScrolls queueUp).2 = Some (p, s)
      /\ jobs_of (w_queue (sampleRun threeScrolls queueUp).1) = ([] ++ new)%list
      /\ length new = p.
Proof.
  apply (queued_events_are_not_stored sampleNow noDateParse noStringConv fetchDown
           sampleUA sampleProjects (sampleRequest threeScrolls) (emptyWorld queueUp)).
  - reflexivity.
  - discriminate.
  - reflexivity.
Defined.

Lemma stored_events_follow_schema_witness :
  (exists new,
      st_events (w_store (sampleRun threeScrolls queueDown).1) = ([] ++ new)%list
      /\ forallb event_ok new = true)
  /\ (0 <= length (st_sessions (w_store (sampleRun threeScrolls queueDown).1)))%nat.
Proof.
  apply (stored_events_follow_schema sampleNow noDateParse noStringConv fetchDown
           sampleUA sampleProjects (sampleRequest threeScrolls) (emptyWorld queueDown)).
  - reflexivity.
  - discriminate.
Defined.

Lemma unqueued_events_are_saved_directly_witness :
  w_queue (sampleRun threeScrolls queueDown).1 = queueDown
  /\ exists p s,
      (sampleRun threeScrolls queueDown).2 = Some (p, s)
      /\ (0 + p <= length (st_events (w_store (sampleRun threeScrolls queueDown).1)))%nat.
Proof.
  apply (unqueued_events_are_saved_directly sampleNow noDateParse noStringConv fetchDown
           sampleUA sampleProjects (sampleRequest threeScrolls) (emptyWorld queueDown)).
  - reflexivity.
  - discriminate.
  - reflexivity.
Defined.

(** ** The legacy handler writes the duration as it is *)

Lemma legacy_update_paths_free ev t :
  first_conflict (update_paths (legacy_update ev t)) = None.
Proof. vm_compute. reflexivity. Qed.

Lemma legacy_update_keeps ev t p :
  p = "startTime" \/ p = "projectId" \/ p = "sessionId"
  \/ p = "endTime" \/ p = "duration" ->
  u_set (legacy_update ev t) !! p = None /\ u_inc (legacy_update ev t) !! p = None.
Proof.
  intros [-> | [-> | [-> | [-> | ->]]]]; vm_compute; split; reflexivity.
Qed.

Lemma legacy_apply ev t (base : doc) :
  numeric_or_absent base "pageViews" = true ->
  numeric_or_absent base "clicks" = true ->
  numeric_or_absent base "scrolls" = true ->
  numeric_or_absent base "forms" = true ->
  numeric_or_absent base "routes" = true ->
  exists session, apply_update (legacy_update ev t) base = Ok session.
Proof.
  intros H1 H2 H3 H4 H5. unfold apply_update, first_mismatch.
  assert (K : (map_to_list (u_inc (legacy_update ev t))).*1
              = (map_to_list (<["pageViews" := 0]> (<["clicks" := 0]>
                   (<["scrolls" := 0]> (<["forms" := 0]>
                      (<["routes" := 0]> (∅ : gmap string Z))))))).*1)
    by (vm_compute; reflexivity).
  rewrite K.
  match goal with
  | |- context [List.find ?f ?l] =>
      let l' := eval vm_compute in l in change l with l'
  end.
  simpl. rewrite H1, H2, H3, H4, H5. simpl. eauto.
Qed.

(** X30. When the stored session has a [startTime] and numeric
    counters, the handler of the legacy worker (and [processEvent] of
    the fallback path, which has the same body) returns for an
    [unload] event and stores as duration the difference between the
    event's instant and [startTime] as it is, negative when the event
    is stamped earlier. *)
Theorem legacy_unload_duration_signed ev (st : store) t (base : doc) t0 :
  event_ok ev = true ->
  ev_type ev = "unload" ->
  ev_timestamp ev = Valid t ->
  findOne (ev_projectId ev) (ev_sessionId ev) (st_sessions st) = Some base ->
  base !! "startTime" = Some (VDate t0) ->
  forallb (numeric_or_absent base)
    ["pageViews"; "clicks"; "scrolls"; "forms"; "routes"] = true ->
  succeeded (legacy_processJob ev st).2 = true
  /\ fieldOf (ev_projectId ev) (ev_sessionId ev) "duration"
       (st_sessions (legacy_processJob ev st).1) = Some (VNum (t - t0))
  /\ fieldOf (ev_projectId ev) (ev_sessionId ev) "endTime"
       (st_sessions (legacy_processJob ev st).1) = Some (VDate t).
Proof.
  intros Hok Ety Ets Hfind Hst Hnum.
  simpl in Hnum. rewrite !andb_true_iff in Hnum.
  destruct Hnum as (H1 & H2 & H3 & H4 & H5 & _).
  destruct (legacy_apply ev t base H1 H2 H3 H4 H5) as [session Hupd].
  apply findOne_lookup in Hfind as (i & Hlf & Hli & Hm).
  assert (Keep : forall p, p = "startTime" \/ p = "projectId" \/ p = "sessionId"
                           \/ p = "endTime" \/ p = "duration" ->
                           session !! p = base !! p).
  { intros p Hp. destruct (legacy_update_keeps ev t p Hp) as [Sp Ip].
    rewrite (apply_update_lookup _ _ _ _ Hupd Ip), Sp. reflexivity. }
  unfold legacy_processJob.
  rewrite (Event_create_event_ok _ _ Hok), Ets. unfold findOneAndUpdate.
  rewrite legacy_update_paths_free, Hlf, Hupd. simpl.
  rewrite Ety. simpl.
  rewrite (Keep "startTime") by auto. rewrite Hst.
  unfold findByIdAndUpdate.
  assert (first_conflict (update_paths (set_ "endTime" (VDate t)
            (set_ "duration" (VNum (t - t0)) noUpdate))) = None) as ->
    by (vm_compute; reflexivity).
  assert (Hlen : (i < length (st_sessions st))%nat) by (eapply lookup_lt_Some; eauto).
  rewrite list_lookup_insert_eq by assumption.
  assert (A2 : exists d2,
    apply_update (set_ "endTime" (VDate t)
                    (set_ "duration" (VNum (t - t0)) noUpdate)) session = Ok d2
    /\ forall p, d2 !! p
          = match (<["endTime" := VDate t]>
                     (<["duration" := VNum (t - t0)]> (∅ : doc))) !! p with
            | Some v => Some v
            | None => session !! p
            end).
  { eexists. split.
    - unfold apply_update, first_mismatch. cbn [u_inc set_ noUpdate].
      rewrite map_to_list_empty. reflexivity.
    - intros p. cbn [u_inc u_set set_ noUpdate].
      rewrite lookup_merge, lookup_empty, lookup_union.
      destruct (_ !! p), (session !! p); reflexivity. }
  destruct A2 as (d2 & -> & L2). simpl.
  rewrite list_insert_insert_eq.
  assert (Hfind2 : findOne (ev_projectId ev) (ev_sessionId ev)
                     (<[i := d2]> (st_sessions st)) = Some d2).
  { unfold findOne.
    rewrite (list_find_insert_preserved _ _ i base d2 Hli), Hlf; simpl.
    - by rewrite decide_True.
    - unfold matches. rewrite (L2 "projectId"), (L2 "sessionId").
      rewrite !lookup_insert_ne, lookup_empty by discriminate.
      rewrite (Keep "projectId"), (Keep "sessionId") by auto. reflexivity. }
  split; [reflexivity|]. unfold fieldOf. rewrite Hfind2. simpl.
  rewrite !L2. split.
  - rewrite lookup_insert_ne by discriminate. by rewrite lookup_insert_eq.
  - by rewrite lookup_insert_eq.
Qed.

Lemma legacy_unload_duration_signed_witness :
  succeeded (legacy_processJob (sampleEvent 1 "S" "unload" 400)
               (mkStore [] [engagedSession])).2 = true
  /\ fieldOf 1 "S" "duration"
       (st_sessions (legacy_processJob (sampleEvent 1 "S" "unload" 400)
                       (mkStore [] [engagedSession])).1)
     = Some (VNum (400 - 1000))
  /\ fieldOf 1 "S" "endTime"
       (st_sessions (legacy_processJob (sampleEvent 1 "S" "unload" 400)
                       (mkStore [] [engagedSession])).1)
     = Some (VDate 400).
Proof.
  apply (legacy_unload_duration_signed (sampleEvent 1 "S" "unload" 400)
           (mkStore [] [engagedSession]) 400 engagedSession 1000);
    vm_compute; reflexivity.
Defined.
